(** * pyMix: a family of Gaussian mixture models fitted by EM

    Shallow embedding of [models/pyMix.py]: the classes [GMM],
    [SphericalGMM], [DiagonalGMM], [MPPCA] and [MFA], their E- and M-steps,
    the EM loop of [fit], and [sample] / [score_samples] / [score].

    Conventions of the embedding.
    - numpy arrays are MathComp matrices over an ordered field [F]; their
      shapes are part of the type, so ill-shaped operands are excluded by
      typing.  Array entries are exact field elements: rounding and overflow
      are outside the model, and [x / 0] follows the field's convention.
    - the scalars that the EM loop compares against [-np.inf] (the
      log-likelihoods and [tol]) are [pyfloat]s: a field element or one of
      the IEEE special values.
    - Python dictionaries with a fixed set of string keys are records of
      optional fields; a missing key raises [KeyError].
    - methods that print, draw random numbers or assign attributes of
      [self] run in a state-and-exception monad over [world].
    - scipy, sklearn, [np.log], [np.random] and the absent module [util] are
      external: they are the fields of the class [Externals]. *)

From HB Require Import structures.
From mathcomp Require Import boot order algebra.
From Stdlib Require Import String.

Set Implicit Arguments.
Unset Strict Implicit.
Unset Printing Implicit Defensive.

Import Order.TTheory GRing.Theory Num.Theory.
Local Open Scope ring_scope.

(** ** Python floats that may be infinite *)

Section PyFloat.
Variable F : realFieldType.

Inductive pyfloat := Fin of F | PInf | NInf | NaN.

Definition fopp (x : pyfloat) : pyfloat :=
  match x with
  | Fin a => Fin (- a)
  | PInf => NInf
  | NInf => PInf
  | NaN => NaN
  end.

Definition fadd (x y : pyfloat) : pyfloat :=
  match x, y with
  | NaN, _ | _, NaN => NaN
  | Fin a, Fin b => Fin (a + b)
  | PInf, NInf | NInf, PInf => NaN
  | PInf, _ | _, PInf => PInf
  | NInf, _ | _, NInf => NInf
  end.

Definition fsub (x y : pyfloat) : pyfloat := fadd x (fopp y).

Definition fabs (x : pyfloat) : pyfloat :=
  match x with
  | Fin a => Fin `|a|
  | PInf | NInf => PInf
  | NaN => NaN
  end.

(** [x < y]: every comparison with [nan] is [False]. *)
Definition flt (x y : pyfloat) : bool :=
  match x, y with
  | NaN, _ | _, NaN => false
  | Fin a, Fin b => a < b
  | NInf, NInf => false
  | NInf, _ => true
  | _, NInf => false
  | PInf, _ => false
  | Fin _, PInf => true
  end.

(** numpy division of scalars: [0/0] and [inf/inf] are [nan], [a/0] is a
    signed infinity. *)
Definition fdiv (x y : pyfloat) : pyfloat :=
  match x, y with
  | NaN, _ | _, NaN => NaN
  | Fin a, Fin b =>
      if b == 0 then
        if a == 0 then NaN else if 0 < a then PInf else NInf
      else Fin (a / b)
  | Fin _, (PInf | NInf) => Fin 0
  | (PInf | NInf), (PInf | NInf) => NaN
  | PInf, Fin b => if 0 <= b then PInf else NInf
  | NInf, Fin b => if 0 <= b then NInf else PInf
  end.

(** [a.sum()] and [a.mean()] of a one-dimensional array of floats. *)
Definition np_sum1 (a : seq pyfloat) : pyfloat := foldl fadd (Fin 0) a.

Definition np_mean1 (a : seq pyfloat) : pyfloat :=
  fdiv (np_sum1 a) (Fin (size a)%:R).

End PyFloat.

Arguments PInf {F}.
Arguments NInf {F}.
Arguments NaN {F}.

(** ** Exceptions, results and the method monad *)

Inductive exn :=
  | TypeError
  | KeyError of string
  | IndexError
  | AttributeError of string
  | UnboundLocalError of string
  | ValueError
  | LinAlgError
  | LibraryError of nat.

Inductive result (A : Type) := Ok of A | Raise of exn.
Arguments Raise {A} _.

Definition rbind {A B} (x : result A) (f : A -> result B) : result B :=
  match x with
  | Ok a => f a
  | Raise e => Raise e
  end.

Declare Scope result_scope.
Delimit Scope result_scope with res.
Notation "x <- c ;; k" := (rbind c (fun x => k))
  (at level 100, c at next level, right associativity) : result_scope.
Notation "' p <- c ;; k" := (rbind c (fun p => k))
  (at level 100, p pattern, c at next level, right associativity)
  : result_scope.

(** [d[key]] on a dictionary field. *)
Definition getitem {A} (key : string) (field : option A) : result A :=
  if field is Some v then Ok v else Raise (KeyError key).

(** [l[i]] on a Python list. *)
Definition list_getitem {A} (l : seq A) (i : nat) : result A :=
  if l is x :: _ then
    if (i < size l)%N then Ok (nth x l i) else Raise IndexError
  else Raise IndexError.

(** [traverse f l]: a loop or comprehension whose body may raise; the
    first exception aborts it. *)
Fixpoint traverse {A B} (f : A -> result B) (l : seq A) : result (seq B) :=
  match l with
  | [::] => Ok [::]
  | x :: l' =>
      rbind (f x) (fun y => rbind (traverse f l') (fun ys => Ok (y :: ys)))
  end.

(** ** numpy operations used by the model *)

Section Numpy.
Variable F : realFieldType.

Section Shaped.
Variables (N D : nat).

(** [X * r[:,np.newaxis]]: row [n] of [X] scaled by [r[n]]. *)
Definition mul_newaxis (X : 'M[F]_(N, D)) (r : 'cV[F]_N) : 'M[F]_(N, D) :=
  \matrix_(n, i) (X n i * r n 0).

(** [r[:,np.newaxis] * A] for a two-dimensional [A]. *)
Definition newaxis_mul (r : 'cV[F]_N) (A : 'M[F]_(N, D)) : 'M[F]_(N, D) :=
  \matrix_(n, i) (r n 0 * A n i).

(** [np.sum(A, axis=0)] and [A.sum(axis=1)]. *)
Definition np_sum_axis0 (A : 'M[F]_(N, D)) : 'rV[F]_D :=
  \row_i \sum_n A n i.

Definition np_sum_axis1 (A : 'M[F]_(N, D)) : 'cV[F]_N :=
  \col_n \sum_i A n i.

(** [np.mean(A, axis=0)]. *)
Definition np_mean_axis0 (A : 'M[F]_(N, D)) : 'rV[F]_D :=
  \row_i ((\sum_n A n i) / N%:R).

(** [r.sum()] of a one-dimensional array. *)
Definition np_sum (r : 'cV[F]_N) : F := \sum_n r n 0.

(** [A / s] and [v / s] for a scalar [s]. *)
Definition div_scalar (A : 'M[F]_(N, D)) (s : F) : 'M[F]_(N, D) :=
  \matrix_(n, i) (A n i / s).

(** [X - mu]: the vector [mu] is subtracted from every row. *)
Definition sub_bcast (X : 'M[F]_(N, D)) (mu : 'rV[F]_D) : 'M[F]_(N, D) :=
  \matrix_(n, i) (X n i - mu 0 i).

(** [A * c] for a matrix [A] and a one-dimensional [c] (one factor per
    column), and [A / s[:,np.newaxis]] (one divisor per row). *)
Definition mul_bcast (A : 'M[F]_(N, D)) (c : 'rV[F]_D) : 'M[F]_(N, D) :=
  \matrix_(n, i) (A n i * c 0 i).

Definition div_newaxis (A : 'M[F]_(N, D)) (s : 'cV[F]_N) : 'M[F]_(N, D) :=
  \matrix_(n, i) (A n i / s n 0).

(** [A[:,k] = v]; nothing is written when [k] is not a column. *)
Definition set_col (A : 'M[F]_(N, D)) (k : nat) (v : 'cV[F]_N)
  : 'M[F]_(N, D) :=
  \matrix_(n, i) (if (i : nat) == k then v n 0 else A n i).

End Shaped.

Section Square.
Variable (D : nat).

(** [np.outer(u, v)]. *)
Definition np_outer (u v : 'rV[F]_D) : 'M[F]_D := u^T *m v.

(** [np.diag(A)] of a square matrix, and [np.diag(np.diag(A))]. *)
Definition np_diag (A : 'M[F]_D) : 'rV[F]_D := \row_i A i i.

Definition np_diag_diag (A : 'M[F]_D) : 'M[F]_D := diag_mx (np_diag A).

(** [np.linalg.inv(A)]: raises on a singular matrix. *)
Definition np_linalg_inv (A : 'M[F]_D) : result 'M[F]_D :=
  if A \in unitmx then Ok (invmx A) else Raise LinAlgError.

End Square.

(** [np.cov(X[mask,:].T)]: the sample covariance of the selected rows,
    with the default [N - 1] normalisation. *)
Definition np_cov_rows N D (X : 'M[F]_(N, D)) (mask : pred 'I_N) : 'M[F]_D :=
  let cnt : F := (\sum_(n | mask n) 1%N)%:R in
  let avg : 'rV[F]_D := cnt^-1 *: \sum_(n | mask n) row n X in
  (cnt - 1)^-1 *: \sum_(n | mask n) (row n X - avg)^T *m (row n X - avg).

(** [np.diag(np.cov(X[mask,:].T))]: with a single feature [np.cov]
    returns a 0-dimensional array, which [np.diag] refuses. *)
Definition np_diag_of_cov N D (X : 'M[F]_(N, D)) (mask : pred 'I_N)
  : result 'rV[F]_D :=
  if D == 1%N then Raise ValueError else Ok (np_diag (np_cov_rows X mask)).

(** [np.cumsum(c)] and [np.argmin(r > cs)] for a boolean array: the index
    of the first [False], or [0] when every entry is [True]; [argmin] of an
    empty array raises. *)
Definition np_cumsum K (c : 'rV[F]_K) : seq F :=
  map (fun k : 'I_K => \sum_(j < K | (j <= k)%N) c 0 j) (enum 'I_K).

Definition np_argmin_gt (r : F) (cs : seq F) : result nat :=
  if cs is [::] then Raise ValueError
  else
    let i := find (fun c => ~~ (c < r)) cs in
    Ok (if (i < size cs)%N then i else 0%N).

End Numpy.

(** ** The data model *)

Section Data.
Variable F : realFieldType.
Variables (K D L : nat).

(** The [params] dictionary.  Keys: ['mu_list'], ['components'] and,
    depending on the class, ['Sigma_list'], ['sigma_sq_list'],
    ['Psi_list'], ['W_list']. *)
Record params_dict := Params {
  mu_list : option (seq 'rV[F]_D);
  components : option 'rV[F]_K;
  Sigma_list : option (seq 'M[F]_D);
  sigma_sq_list : option (seq F);
  Psi_list : option (seq 'M[F]_D);
  W_list : option (seq 'M[F]_(D, L))
}.

(** The dictionary [{}]. *)
Definition no_keys : params_dict :=
  {| mu_list := None; components := None; Sigma_list := None;
     sigma_sq_list := None; Psi_list := None; W_list := None |}.

(** The sufficient statistics [ss] of an E-step on [N] examples. *)
Record ss_dict (N : nat) := Stats {
  responsibilities : option 'M[F]_(N, K);
  z_list : option (seq 'M[F]_(N, L));
  zz_list : option (seq ('I_N -> 'M[F]_L))
}.

Inductive klass := GMM | SphericalGMM | DiagonalGMM | MPPCA | MFA.

(** An instance.  [n_components] is the index [K] of the type; an
    attribute that has not been assigned yet is [None]; [params] may have
    been assigned the value [None]. *)
Record model := Model {
  class_of : klass;
  tol : pyfloat F;
  max_iter : int;
  random_state : int;
  isFitted : bool;
  verbose : bool;
  latent_dim : option nat;
  data_dim : option nat;
  params : option (option params_dict);
  trainNll : option (pyfloat F)
}.

Definition n_components (self : model) : nat := K.

(** What [print] writes. *)
Inductive line :=
  | IterLine of nat & pyfloat F & pyfloat F
  | DidNotConverge
  | NotYetFitted.

(** The result of [KMeans(K).fit(X)]. *)
Record kmeans (N : nat) := KMeansFit {
  cluster_centers_ : seq 'rV[F]_D;
  labels_ : 'I_N -> nat
}.

End Data.

Arguments Params {F K D L}.
Arguments no_keys {F K D L}.
Arguments Stats {F K L N}.
Arguments KMeansFit {F D N}.
Arguments IterLine {F}.
Arguments DidNotConverge {F}.
Arguments NotYetFitted {F}.

(** ** External collaborators *)

Class Externals (F : realFieldType) (D L : nat) := {
  rng_state : Type;
  (** [np.log] *)
  np_log : F -> pyfloat F;
  (** [scipy.stats.multivariate_normal.pdf(X, mu, Sigma)] *)
  mvn_pdf : forall N, 'M[F]_(N, D) -> 'rV[F]_D -> 'M[F]_D -> result 'cV[F]_N;
  (** [util._mv_gaussian_pdf(X, mu, Sigma)]; [util] is not part of the
      sources. *)
  _mv_gaussian_pdf :
    forall N, 'M[F]_(N, D) -> 'rV[F]_D -> 'M[F]_D -> result 'cV[F]_N;
  (** [KMeans(n_clusters).fit(X)] *)
  KMeans_fit : forall N, nat -> 'M[F]_(N, D) -> result (kmeans F D N);
  (** [PCA(n_components=L).fit(X[mask,:])]: [components_] and
      [noise_variance_] *)
  PCA_fit : forall N, 'M[F]_(N, D) -> pred 'I_N -> result ('M[F]_(L, D) * F);
  (** [FactorAnalysis(n_components=L).fit(X[mask,:])]: [components_] and
      [noise_variance_] *)
  FactorAnalysis_fit :
    forall N, 'M[F]_(N, D) -> pred 'I_N -> result ('M[F]_(L, D) * 'rV[F]_D);
  (** [np.random.rand(1)] *)
  np_random_rand : rng_state -> F * rng_state;
  (** [numpy.random.multivariate_normal(mu, Sigma)] *)
  rd_multivariate_normal :
    'rV[F]_D -> 'M[F]_D -> rng_state -> result 'rV[F]_D * rng_state
}.

Arguments mvn_pdf {F D L _ N}.
Arguments _mv_gaussian_pdf {F D L _ N}.
Arguments KMeans_fit {F D L _ N}.
Arguments PCA_fit {F D L _ N}.
Arguments FactorAnalysis_fit {F D L _ N}.

(** ** The classes

    [C_meth] is the method [meth] as class [C] defines it; the unprefixed
    [_params_to_Sigma], [_init_params], [_e_step] and [_m_step] are what
    [self._meth] resolves to, by the class of [self]. *)

Section Classes.
Context {F : realFieldType} {K D L : nat} {E : Externals F D L}.

Local Notation params_dict := (params_dict F K D L).
Local Notation model := (model F K D L).
Local Notation pyfloat := (pyfloat F).
Local Open Scope result_scope.

(** The interpreter state a method runs in: the instance, what has been
    printed, numpy's global generator and the last seed given to Python's
    [random] module. *)
Record world := World {
  self_of : model;
  stdout : seq (line F);
  np_random : rng_state;
  py_random : option int
}.

Definition M (A : Type) : Type := world -> result A * world.

Definition ret {A} (a : A) : M A := fun w => (Ok a, w).

Definition raise {A} (e : exn) : M A := fun w => (Raise e, w).

Definition mbind {A B} (c : M A) (k : A -> M B) : M B :=
  fun w => match c w with
           | (Ok a, w') => k a w'
           | (Raise e, w') => (Raise e, w')
           end.

Definition lift {A} (r : result A) : M A := fun w => (r, w).

Definition get_self : M model := fun w => (Ok (self_of w), w).

(** The world once [self] has been updated by [f], and once the lines
    [ls] have been printed. *)
Definition updated (f : model -> model) (w : world) : world :=
  World (f (self_of w)) (stdout w) (np_random w) (py_random w).

Definition printed (ls : seq (line F)) (w : world) : world :=
  World (self_of w) (stdout w ++ ls) (np_random w) (py_random w).

Definition set_self (f : model -> model) : M unit :=
  fun w => (Ok tt, updated f w).

Definition print (l : line F) : M unit :=
  fun w => (Ok tt, printed [:: l] w).

Definition seed (s : int) : M unit :=
  fun w => (Ok tt, World (self_of w) (stdout w) (np_random w) (Some s)).

Definition with_rng {A} (f : rng_state -> A * rng_state) : M A :=
  fun w => let: (a, g) := f (np_random w) in
           (Ok a, World (self_of w) (stdout w) g (py_random w)).

Definition with_rng_result {A} (f : rng_state -> result A * rng_state)
  : M A :=
  fun w => let: (a, g) := f (np_random w) in
           (a, World (self_of w) (stdout w) g (py_random w)).

Definition when (b : bool) (c : M unit) : M unit := if b then c else ret tt.

(** Attribute assignments. *)
Definition set_latent_dim (v : nat) (m : model) : model :=
  Model (class_of m) (tol m) (max_iter m) (random_state m) (isFitted m)
    (verbose m) (Some v) (data_dim m) (params m) (trainNll m).

Definition set_data_dim (v : nat) (m : model) : model :=
  Model (class_of m) (tol m) (max_iter m) (random_state m) (isFitted m)
    (verbose m) (latent_dim m) (Some v) (params m) (trainNll m).

Definition set_params (v : option params_dict) (m : model) : model :=
  Model (class_of m) (tol m) (max_iter m) (random_state m) (isFitted m)
    (verbose m) (latent_dim m) (data_dim m) (Some v) (trainNll m).

Definition set_trainNll (v : pyfloat) (m : model) : model :=
  Model (class_of m) (tol m) (max_iter m) (random_state m) (isFitted m)
    (verbose m) (latent_dim m) (data_dim m) (params m) (Some v).

Definition set_isFitted (v : bool) (m : model) : model :=
  Model (class_of m) (tol m) (max_iter m) (random_state m) v
    (verbose m) (latent_dim m) (data_dim m) (params m) (trainNll m).

(** Reading an attribute that may not have been assigned. *)
Definition getattr {A} (name : string) (field : option A) : result A :=
  if field is Some v then Ok v else Raise (AttributeError name).

(** [params[...]] when [params] may be [None]. *)
Definition subscript (params : option params_dict) : result params_dict :=
  if params is Some p then Ok p else Raise TypeError.

(** [np.eye(n)] as an operand of [d]-square arrays, [n] being the value
    of an attribute.  Shapes are part of the types here, so the identity
    has a value only for [n = d], which is what [fit] and the constructors
    assign.  For another [n] numpy builds an array of another shape (or
    broadcasts, when one of the two sizes is [1]), which the typed arrays
    do not cover; the model stops there with [ValueError], and the results
    on covariances below assume [data_dim = D]. *)
Definition np_eye (n d : nat) : result 'M[F]_d :=
  if n == d then Ok 1%:M else Raise ValueError.

(** *** Constructors *)

(** The defaults of the constructors' signatures: [tol=1e-3],
    [max_iter=1000], [random_state=0], [verbose=True]. *)
Definition default_tol : pyfloat := Fin (1 / 1000%:R).
Definition default_max_iter : int := 1000%:Z.
Definition default_random_state : int := 0.
Definition default_verbose : bool := true.

(** [GMM.__init__], also run for [SphericalGMM] and [DiagonalGMM], which
    do not define one; [cls] is the class being instantiated. *)
Definition GMM_init (cls : klass) (tol : pyfloat) (max_iter : int)
    (random_state : int) (verbose : bool) : model :=
  {| class_of := cls; tol := tol; max_iter := max_iter;
     random_state := random_state; isFitted := false; verbose := verbose;
     latent_dim := None; data_dim := None; params := None;
     trainNll := None |}.

(** [MPPCA.__init__] and [MFA.__init__]: the call of the parent's
    constructor, then [self.latent_dim = latent_dim].  The argument
    [latent_dim] is the index [L] of the type. *)
Definition MPPCA_init (tol : pyfloat) (max_iter : int)
    (random_state : int) (verbose : bool) : model :=
  let self := GMM_init MPPCA (Fin (1 / 1000%:R)) 1000%:Z 0 true in
  set_latent_dim L self.

Definition MFA_init (tol : pyfloat) (max_iter : int)
    (random_state : int) (verbose : bool) : model :=
  let self := GMM_init MFA (Fin (1 / 1000%:R)) 1000%:Z 0 true in
  set_latent_dim L self.

(** *** [_params_to_Sigma] *)

Definition GMM_params_to_Sigma (self : model) (params : option params_dict)
  : result (seq 'M[F]_D) :=
  p <- subscript params ;;
  getitem "Sigma_list" (Sigma_list p).

Definition SphericalGMM_params_to_Sigma (self : model)
    (params : option params_dict) : result (seq 'M[F]_D) :=
  p <- subscript params ;;
  sigma_sq_list <- getitem "sigma_sq_list" (sigma_sq_list p) ;;
  traverse (fun sigma_sq : F =>
              d <- getattr "data_dim" (data_dim self) ;;
              eye <- np_eye d D ;;
              Ok (sigma_sq *: eye))
           sigma_sq_list.

Definition DiagonalGMM_params_to_Sigma (self : model)
    (params : option params_dict) : result (seq 'M[F]_D) :=
  p <- subscript params ;;
  getitem "Psi_list" (Psi_list p).

Definition MPPCA_params_to_Sigma (self : model)
    (params : option params_dict) : result (seq 'M[F]_D) :=
  p <- subscript params ;;
  W_list <- getitem "W_list" (W_list p) ;;
  sigma_sq_list <- getitem "sigma_sq_list" (sigma_sq_list p) ;;
  traverse (fun Ws : 'M[F]_(D, L) * F =>
              d <- getattr "data_dim" (data_dim self) ;;
              eye <- np_eye d D ;;
              Ok (Ws.1 *m Ws.1^T + Ws.2 *: eye))
           (zip W_list sigma_sq_list).

Definition MFA_params_to_Sigma (self : model)
    (params : option params_dict) : result (seq 'M[F]_D) :=
  p <- subscript params ;;
  W_list <- getitem "W_list" (W_list p) ;;
  Psi_list <- getitem "Psi_list" (Psi_list p) ;;
  Ok [seq WP.1 *m WP.1^T + WP.2 | WP <- zip W_list Psi_list].

Definition _params_to_Sigma (self : model) (params : option params_dict)
  : result (seq 'M[F]_D) :=
  match class_of self with
  | GMM => GMM_params_to_Sigma self params
  | SphericalGMM => SphericalGMM_params_to_Sigma self params
  | DiagonalGMM => DiagonalGMM_params_to_Sigma self params
  | MPPCA => MPPCA_params_to_Sigma self params
  | MFA => MFA_params_to_Sigma self params
  end.

(** *** E-steps *)

(** A [for] loop that updates one variable and whose body may raise. *)
Fixpoint for_each {A S} (body : S -> A -> result S) (l : seq A) (s : S)
  : result S :=
  match l with
  | [::] => Ok s
  | a :: l' => s' <- body s a ;; for_each body l' s'
  end.

(** [for k, mu, Sigma in zip(range(K), mu_list, Sigma_list): r[:,k] =
    pdf(X, mu, Sigma)], starting from [np.zeros([N, K])]. *)
Definition densities
    (pdf : forall N, 'M[F]_(N, D) -> 'rV[F]_D -> 'M[F]_D -> result 'cV[F]_N)
    N (X : 'M[F]_(N, D)) (mu_list : seq 'rV[F]_D)
    (Sigma_list : seq 'M[F]_D) : result 'M[F]_(N, K) :=
  for_each (fun (r : 'M[F]_(N, K)) (kms : nat * ('rV[F]_D * 'M[F]_D)) =>
              v <- pdf N X kms.2.1 kms.2.2 ;;
              Ok (set_col r kms.1 v))
           (zip (iota 0 K) (zip mu_list Sigma_list))
           (const_mx 0).

(** [r = r * components; r_sum = r.sum(axis=1);
     responsibilities = r / r_sum[:,np.newaxis]] *)
Definition weighted N (r : 'M[F]_(N, K)) (components : 'rV[F]_K)
  : 'M[F]_(N, K) := mul_bcast r components.

Definition normalise N (r : 'M[F]_(N, K)) : 'M[F]_(N, K) :=
  div_newaxis r (np_sum_axis1 r).

(** [np.log(r_sum)] *)
Definition log_rows N (r_sum : 'cV[F]_N) : seq pyfloat :=
  [seq np_log (r_sum n 0) | n <- enum 'I_N].

Definition GMM_e_step (self : model) N (X : 'M[F]_(N, D))
    (params : option params_dict)
  : result (ss_dict F K L N * seq pyfloat) :=
  p <- subscript params ;;
  mu_list <- getitem "mu_list" (mu_list p) ;;
  components <- getitem "components" (components p) ;;
  Sigma_list <- _params_to_Sigma self params ;;
  r <- densities (@mvn_pdf _ _ _ _) X mu_list Sigma_list ;;
  let r := weighted r components in
  let r_sum := np_sum_axis1 r in
  let responsibilities := normalise r in
  let ss := Stats (Some responsibilities) None None in
  let sample_ll := log_rows r_sum in
  Ok (ss, sample_ll).

(** [z[:,:,np.newaxis] * z[:,np.newaxis,:]]: one [L]-square matrix per
    example. *)
Definition outer_rows N (z : 'M[F]_(N, L)) : 'I_N -> 'M[F]_L :=
  fun n => (row n z)^T *m row n z.

Definition MPPCA_e_step (self : model) N (X : 'M[F]_(N, D))
    (params : option params_dict)
  : result (ss_dict F K L N * seq pyfloat) :=
  p <- subscript params ;;
  mu_list <- getitem "mu_list" (mu_list p) ;;
  components <- getitem "components" (components p) ;;
  W_list <- getitem "W_list" (W_list p) ;;
  sigma_sq_list <- getitem "sigma_sq_list" (sigma_sq_list p) ;;
  Sigma_list <- _params_to_Sigma self params ;;
  r <- densities (@_mv_gaussian_pdf _ _ _ _) X mu_list Sigma_list ;;
  let r := weighted r components in
  let r_sum := np_sum_axis1 r in
  let responsibilities := normalise r in
  stats <- traverse
    (fun mWs : 'rV[F]_D * ('M[F]_(D, L) * F) =>
       let: (mu, (W, sigma_sq)) := mWs in
       let dev := sub_bcast X mu in
       l <- getattr "latent_dim" (latent_dim self) ;;
       eye <- np_eye l L ;;
       F_inv <- np_linalg_inv (W^T *m W + sigma_sq *: eye) ;;
       let z := dev *m (W *m F_inv) in
       let zz := fun n => sigma_sq *: F_inv + outer_rows z n in
       Ok (z, zz))
    (zip mu_list (zip W_list sigma_sq_list)) ;;
  let ss := Stats (Some responsibilities) (Some (unzip1 stats))
                  (Some (unzip2 stats)) in
  let sample_ll := log_rows r_sum in
  Ok (ss, sample_ll).

Definition MFA_e_step (self : model) N (X : 'M[F]_(N, D))
    (params : option params_dict)
  : result (ss_dict F K L N * seq pyfloat) :=
  p <- subscript params ;;
  mu_list <- getitem "mu_list" (mu_list p) ;;
  components <- getitem "components" (components p) ;;
  W_list <- getitem "W_list" (W_list p) ;;
  Psi_list <- getitem "Psi_list" (Psi_list p) ;;
  Sigma_list <- _params_to_Sigma self params ;;
  r <- densities (@_mv_gaussian_pdf _ _ _ _) X mu_list Sigma_list ;;
  let r := weighted r components in
  let r_sum := np_sum_axis1 r in
  let responsibilities := normalise r in
  stats <- traverse
    (fun mWP : 'rV[F]_D * ('M[F]_(D, L) * 'M[F]_D) =>
       let: (mu, (W, Psi)) := mWP in
       let dev := sub_bcast X mu in
       F_inv <- np_linalg_inv (W *m W^T + Psi) ;;
       let z := dev *m (F_inv *m W) in
       l <- getattr "latent_dim" (latent_dim self) ;;
       eye <- np_eye l L ;;
       let zz := fun n => eye - W^T *m F_inv *m W + outer_rows z n in
       Ok (z, zz))
    (zip mu_list (zip W_list Psi_list)) ;;
  let ss := Stats (Some responsibilities) (Some (unzip1 stats))
                  (Some (unzip2 stats)) in
  let sample_ll := log_rows r_sum in
  Ok (ss, sample_ll).

Definition _e_step (self : model) N (X : 'M[F]_(N, D))
    (params : option params_dict)
  : result (ss_dict F K L N * seq pyfloat) :=
  match class_of self with
  | GMM | SphericalGMM | DiagonalGMM => GMM_e_step self X params
  | MPPCA => MPPCA_e_step self X params
  | MFA => MFA_e_step self X params
  end.

(** *** M-steps *)

(** [for r in resp.T]: the columns of the responsibilities. *)
Definition columns N (resp : 'M[F]_(N, K)) : seq 'cV[F]_N :=
  [seq col k resp | k <- enum 'I_K].

(** [np.sum(A*r[:,np.newaxis], axis=0) / r.sum()] *)
Definition weighted_mean N (A : 'M[F]_(N, D)) (r : 'cV[F]_N) : 'rV[F]_D :=
  div_scalar (np_sum_axis0 (mul_newaxis A r)) (np_sum r).

(** [(X*r[:,np.newaxis]).T.dot(X) / r.sum() - np.outer(mu, mu)] *)
Definition weighted_cov N (X : 'M[F]_(N, D)) (r : 'cV[F]_N)
    (mu : 'rV[F]_D) : 'M[F]_D :=
  div_scalar ((mul_newaxis X r)^T *m X) (np_sum r) - np_outer mu mu.

Definition GMM_m_step (self : model) N (X : 'M[F]_(N, D))
    (ss : ss_dict F K L N) (params : option params_dict)
  : result params_dict :=
  resp <- getitem "responsibilities" (responsibilities ss) ;;
  let components := np_mean_axis0 resp in
  let upd := [seq (let mu := weighted_mean X r in
                   (mu, weighted_cov X r mu)) | r <- columns resp] in
  let mu_list := unzip1 upd in
  let Sigma_list := unzip2 upd in
  Ok {| Sigma_list := Some Sigma_list; mu_list := Some mu_list;
        components := Some components;
        sigma_sq_list := None; Psi_list := None; W_list := None |}.

Definition SphericalGMM_m_step (self : model) N (X : 'M[F]_(N, D))
    (ss : ss_dict F K L N) (params : option params_dict)
  : result params_dict :=
  resp <- getitem "responsibilities" (responsibilities ss) ;;
  let components := np_mean_axis0 resp in
  p <- subscript params ;;
  old_mu_list <- getitem "mu_list" (mu_list p) ;;
  mu0 <- list_getitem old_mu_list 0 ;;
  let d : nat := D in
  let upd :=
    [seq (let mu := weighted_mean X r in
          let dev := sub_bcast X mu in
          let sigma_sq :=
            \tr (newaxis_mul r (dev *m dev^T)) / (d%:R * np_sum r) in
          (mu, sigma_sq)) | r <- columns resp] in
  let mu_list := unzip1 upd in
  let sigma_sq_list := unzip2 upd in
  Ok {| sigma_sq_list := Some sigma_sq_list; mu_list := Some mu_list;
        components := Some components;
        Sigma_list := None; Psi_list := None; W_list := None |}.

Definition DiagonalGMM_m_step (self : model) N (X : 'M[F]_(N, D))
    (ss : ss_dict F K L N) (params : option params_dict)
  : result params_dict :=
  resp <- getitem "responsibilities" (responsibilities ss) ;;
  let components := np_mean_axis0 resp in
  let upd := [seq (let mu := weighted_mean X r in
                   (mu, np_diag_diag (weighted_cov X r mu)))
             | r <- columns resp] in
  let mu_list := unzip1 upd in
  let Psi_list := unzip2 upd in
  Ok {| Psi_list := Some Psi_list; mu_list := Some mu_list;
        components := Some components;
        Sigma_list := None; sigma_sq_list := None; W_list := None |}.

(** [zip(resp.T, W_list_old, z_list, zz_list)] *)
Definition zip4 {A B C E'} (a : seq A) (b : seq B) (c : seq C)
    (d : seq E') : seq (A * (B * (C * E'))) :=
  zip a (zip b (zip c d)).

(** [A * B] on arrays of one shape: entry by entry. *)
Definition mul_elem m n (A B : 'M[F]_(m, n)) : 'M[F]_(m, n) :=
  \matrix_(i, j) (A i j * B i j).

(** [np.sum(zz*r[:,np.newaxis,np.newaxis], axis=0)] *)
Definition weighted_sum_zz N (zz : 'I_N -> 'M[F]_L) (r : 'cV[F]_N)
  : 'M[F]_L := \sum_n \matrix_(a, b) (zz n a b * r n 0).

(** The residual of the reconstruction, [X - z.dot(W.T)], and the mean
    update shared by [MPPCA] and [MFA]. *)
Definition resid N (X : 'M[F]_(N, D)) (z : 'M[F]_(N, L))
    (W : 'M[F]_(D, L)) : 'M[F]_(N, D) := X - z *m W^T.

Definition MPPCA_m_step (self : model) N (X : 'M[F]_(N, D))
    (ss : ss_dict F K L N) (params : option params_dict)
  : result params_dict :=
  resp <- getitem "responsibilities" (responsibilities ss) ;;
  z_list <- getitem "z_list" (z_list ss) ;;
  zz_list <- getitem "zz_list" (zz_list ss) ;;
  p <- subscript params ;;
  W_list_old <- getitem "W_list" (W_list p) ;;
  let components := np_mean_axis0 resp in
  upd <- traverse
    (fun it : 'cV[F]_N * ('M[F]_(D, L) * ('M[F]_(N, L)
                                           * ('I_N -> 'M[F]_L))) =>
       let: (r, (W, (z, zz))) := it in
       let mu := weighted_mean (resid X z W) r in
       let W1 := (mul_newaxis (sub_bcast X mu) r)^T *m z in
       W2 <- np_linalg_inv (weighted_sum_zz zz r) ;;
       let W := W1 *m W2 in
       let s1 := np_diag (sub_bcast X mu *m (sub_bcast X mu)^T) in
       let s2 := np_diag ((-2%:R) *: (z *m W^T *m (sub_bcast X mu)^T)) in
       let s3 : 'rV[F]_N :=
         \row_n \tr (mul_elem (zz n) (W^T *m W)) in
       d <- getattr "data_dim" (data_dim self) ;;
       let sigma_sq :=
         (\sum_n r n 0 * (s1 0 n + s2 0 n + s3 0 n)) / (d%:R * np_sum r) in
       Ok (mu, (W, sigma_sq)))
    (zip4 (columns resp) W_list_old z_list zz_list) ;;
  let mu_list := unzip1 upd in
  let W_list := unzip1 (unzip2 upd) in
  let sigma_sq_list := unzip2 (unzip2 upd) in
  Ok {| W_list := Some W_list; sigma_sq_list := Some sigma_sq_list;
        mu_list := Some mu_list; components := Some components;
        Sigma_list := None; Psi_list := None |}.

Definition MFA_m_step (self : model) N (X : 'M[F]_(N, D))
    (ss : ss_dict F K L N) (params : option params_dict)
  : result params_dict :=
  resp <- getitem "responsibilities" (responsibilities ss) ;;
  z_list <- getitem "z_list" (z_list ss) ;;
  zz_list <- getitem "zz_list" (zz_list ss) ;;
  p <- subscript params ;;
  W_list_old <- getitem "W_list" (W_list p) ;;
  let components := np_mean_axis0 resp in
  upd <- traverse
    (fun it : 'cV[F]_N * ('M[F]_(D, L) * ('M[F]_(N, L)
                                           * ('I_N -> 'M[F]_L))) =>
       let: (r, (W, (z, zz))) := it in
       let mu := weighted_mean (resid X z W) r in
       let W1 := (mul_newaxis (sub_bcast X mu) r)^T *m z in
       W2 <- np_linalg_inv (weighted_sum_zz zz r) ;;
       let W := W1 *m W2 in
       let s1 := (mul_newaxis (sub_bcast X mu) r)^T *m sub_bcast X mu in
       let s2 := W *m ((mul_newaxis z r)^T *m sub_bcast X mu) in
       let Psi := div_scalar (np_diag_diag (s1 - s2)) (np_sum r) in
       Ok (mu, (W, Psi)))
    (zip4 (columns resp) W_list_old z_list zz_list) ;;
  let mu_list := unzip1 upd in
  let W_list := unzip1 (unzip2 upd) in
  let Psi_list := unzip2 (unzip2 upd) in
  Ok {| W_list := Some W_list; Psi_list := Some Psi_list;
        mu_list := Some mu_list; components := Some components;
        Sigma_list := None; sigma_sq_list := None |}.

Definition _m_step (self : model) N (X : 'M[F]_(N, D))
    (ss : ss_dict F K L N) (params : option params_dict)
  : result params_dict :=
  match class_of self with
  | GMM => GMM_m_step self X ss params
  | SphericalGMM => SphericalGMM_m_step self X ss params
  | DiagonalGMM => DiagonalGMM_m_step self X ss params
  | MPPCA => MPPCA_m_step self X ss params
  | MFA => MFA_m_step self X ss params
  end.

(** *** [_init_params] *)

Declare Scope method_scope.
Delimit Scope method_scope with meth.
Notation "x <- c ;; k" := (mbind c (fun x => k))
  (at level 100, c at next level, right associativity) : method_scope.
Notation "' p <- c ;; k" := (mbind c (fun p => k))
  (at level 100, p pattern, c at next level, right associativity)
  : method_scope.
Notation "c ;; k" := (mbind c (fun _ => k))
  (at level 100, right associativity) : method_scope.
Local Open Scope method_scope.

(** [labels_ == k] as a row mask, and
    [np.sum(labels_ == k) / n_examples]. *)
Definition in_cluster N (km : kmeans F D N) (k : nat) : pred 'I_N :=
  fun n => labels_ km n == k.

Definition population N (km : kmeans F D N) : 'rV[F]_K :=
  \row_k ((\sum_(n < N | in_cluster km k n) 1)%N%:R / N%:R).

Definition GMM_init_params (init_method : string) N (X : 'M[F]_(N, D))
  : M (option params_dict) :=
  self <- get_self ;;
  seed (random_state self) ;;
  if String.eqb init_method "kmeans" then
    km <- lift (KMeans_fit K X) ;;
    let mu_list := cluster_centers_ km in
    let Sigma_list :=
      [seq np_cov_rows X (in_cluster km k) | k <- iota 0 K] in
    let components := population km in
    ret (Some {| mu_list := Some mu_list; Sigma_list := Some Sigma_list;
                 components := Some components;
                 sigma_sq_list := None; Psi_list := None;
                 W_list := None |})
  else ret None.

Definition SphericalGMM_init_params (init_method : string) N
    (X : 'M[F]_(N, D)) : M (option params_dict) :=
  self <- get_self ;;
  seed (random_state self) ;;
  if String.eqb init_method "kmeans" then
    km <- lift (KMeans_fit K X) ;;
    let mu_list := cluster_centers_ km in
    sigma_sq_list <- lift (traverse
      (fun k : nat =>
         (v <- np_diag_of_cov X (in_cluster km k) ;;
          Ok ((\sum_i v 0 i) / D%:R))%res)
      (iota 0 K)) ;;
    let components := population km in
    ret (Some {| mu_list := Some mu_list;
                 sigma_sq_list := Some sigma_sq_list;
                 components := Some components;
                 Sigma_list := None; Psi_list := None; W_list := None |})
  else ret None.

Definition DiagonalGMM_init_params (init_method : string) N
    (X : 'M[F]_(N, D)) : M (option params_dict) :=
  self <- get_self ;;
  seed (random_state self) ;;
  if String.eqb init_method "kmeans" then
    km <- lift (KMeans_fit K X) ;;
    let mu_list := cluster_centers_ km in
    Psi_list <- lift (traverse
      (fun k : nat =>
         (v <- np_diag_of_cov X (in_cluster km k) ;;
          Ok (diag_mx v))%res)
      (iota 0 K)) ;;
    let components := population km in
    ret (Some {| mu_list := Some mu_list; Psi_list := Some Psi_list;
                 components := Some components;
                 Sigma_list := None; sigma_sq_list := None;
                 W_list := None |})
  else ret None.

(** [PCA(n_components=self.latent_dim)] yields [L] components only when
    the attribute holds [L]. *)
Definition latent_dim_is_L (self : model) : result unit :=
  (l <- getattr "latent_dim" (latent_dim self) ;;
   if l == L then Ok tt else Raise ValueError)%res.

Definition MPPCA_init_params (init_method : string) N (X : 'M[F]_(N, D))
  : M (option params_dict) :=
  self <- get_self ;;
  seed (random_state self) ;;
  if String.eqb init_method "kmeans" then
    km <- lift (KMeans_fit K X) ;;
    let mu_list := cluster_centers_ km in
    fits <- lift (traverse
      (fun k : nat =>
         (_ <- latent_dim_is_L self ;;
          pca <- PCA_fit X (in_cluster km k) ;;
          Ok (pca.1^T, pca.2))%res)
      (iota 0 K)) ;;
    let W_list := unzip1 fits in
    let sigma_sq_list := unzip2 fits in
    let components := population km in
    ret (Some {| mu_list := Some mu_list; W_list := Some W_list;
                 sigma_sq_list := Some sigma_sq_list;
                 components := Some components;
                 Sigma_list := None; Psi_list := None |})
  else ret None.

Definition MFA_init_params (init_method : string) N (X : 'M[F]_(N, D))
  : M (option params_dict) :=
  self <- get_self ;;
  seed (random_state self) ;;
  if String.eqb init_method "kmeans" then
    km <- lift (KMeans_fit K X) ;;
    let mu_list := cluster_centers_ km in
    fits <- lift (traverse
      (fun k : nat =>
         (_ <- latent_dim_is_L self ;;
          fa <- FactorAnalysis_fit X (in_cluster km k) ;;
          Ok (fa.1^T, diag_mx fa.2))%res)
      (iota 0 K)) ;;
    let W_list := unzip1 fits in
    let Psi_list := unzip2 fits in
    let components := population km in
    ret (Some {| mu_list := Some mu_list; W_list := Some W_list;
                 Psi_list := Some Psi_list;
                 components := Some components;
                 Sigma_list := None; sigma_sq_list := None |})
  else ret None.

Definition _init_params (init_method : string) N (X : 'M[F]_(N, D))
  : M (option params_dict) :=
  self <- get_self ;;
  match class_of self with
  | GMM => GMM_init_params init_method X
  | SphericalGMM => SphericalGMM_init_params init_method X
  | DiagonalGMM => DiagonalGMM_init_params init_method X
  | MPPCA => MPPCA_init_params init_method X
  | MFA => MFA_init_params init_method X
  end.

(** *** [fit] *)

(** [range(n)] for a Python integer: empty when [n] is negative. *)
Definition range_len (n : int) : nat :=
  match n with
  | Posz m => m
  | Negz _ => 0%N
  end.

(** [np.abs(ll - oldL) < self.tol] *)
Definition small_change (ll oldL tol : pyfloat) : bool :=
  flt (fabs (fsub ll oldL)) tol.

(** How the [for] loop of [fit] ends: the values of the local variables
    [params] and [ll] ([None] while [ll] is unbound), and whether the loop
    was left by [break]. *)
Record loop_exit := LoopExit {
  exit_params : option params_dict;
  exit_ll : option pyfloat;
  exit_break : bool
}.

(** The loop body, for the [todo] remaining values of [i]. *)
Fixpoint fit_loop N (X : 'M[F]_(N, D)) (todo : nat) (i : nat)
    (params : option params_dict) (oldL : pyfloat) (ll : option pyfloat)
  : M loop_exit :=
  match todo with
  | 0%N => ret (LoopExit params ll false)
  | todo'.+1 =>
      self <- get_self ;;
      '(ss, sample_ll) <- lift (_e_step self X params) ;;
      let ll := np_sum1 sample_ll in
      self <- get_self ;;
      when (verbose self)
           (print (IterLine i (fopp ll) (fopp (fsub ll oldL)))) ;;
      self <- get_self ;;
      if small_change ll oldL (tol self) then
        ret (LoopExit params (Some ll) true)
      else
        let oldL := ll in
        self <- get_self ;;
        params <- lift (_m_step self X ss params) ;;
        fit_loop X todo' i.+1 (Some params) oldL (Some ll)
  end.

(** [if params_init is None: params = self._init_params(init_method, X)
    else: params = params_init] *)
Definition initial_params N (X : 'M[F]_(N, D))
    (params_init : option params_dict) (init_method : string)
  : M (option params_dict) :=
  if params_init is Some p then ret (Some p)
  else _init_params init_method X.

Definition fit N (X : 'M[F]_(N, D)) (params_init : option params_dict)
    (init_method : string) : M unit :=
  set_self (set_data_dim D) ;;
  params <- initial_params X params_init init_method ;;
  let oldL : pyfloat := NInf in
  self <- get_self ;;
  ex <- fit_loop X (range_len (max_iter self)) 0 params oldL None ;;
  self <- get_self ;;
  when (~~ exit_break ex) (when (verbose self) (print DidNotConverge)) ;;
  set_self (set_params (exit_params ex)) ;;
  ll <- (if exit_ll ex is Some v then ret v
         else raise (UnboundLocalError "ll")) ;;
  set_self (set_trainNll ll) ;;
  set_self (set_isFitted true).

(** *** [sample], [score_samples], [score] *)

(** The loop of [sample]: [n] draws, each appended as a row. *)
Fixpoint sample_rows (n : nat) (d : nat) (cs : seq F)
    (mu_list : seq 'rV[F]_D) (Sigma_list : seq 'M[F]_D)
  : M (seq 'rV[F]_D) :=
  match n with
  | 0%N => ret [::]
  | n'.+1 =>
      r <- with_rng np_random_rand ;;
      z <- lift (np_argmin_gt r cs) ;;
      mu <- lift (list_getitem mu_list z) ;;
      Sigma <- lift (list_getitem Sigma_list z) ;;
      x <- with_rng_result (rd_multivariate_normal mu Sigma) ;;
      (if d == D then ret tt else raise ValueError) ;;
      rest <- sample_rows n' d cs mu_list Sigma_list ;;
      ret (x :: rest)
  end.

Definition sample (n_samples : nat) : M (option (seq 'rV[F]_D)) :=
  self <- get_self ;;
  if ~~ isFitted self then
    print NotYetFitted ;; ret None
  else
    ps <- lift (getattr "params" (params self)) ;;
    p <- lift (subscript ps) ;;
    components <- lift (getitem "components" (components p)) ;;
    mu_list <- lift (getitem "mu_list" (mu_list p)) ;;
    Sigma_list <- lift (_params_to_Sigma self ps) ;;
    let components_cumsum := np_cumsum components in
    d <- lift (getattr "data_dim" (data_dim self)) ;;
    samples <- sample_rows n_samples d components_cumsum mu_list
                 Sigma_list ;;
    ret (Some samples).

Definition score_samples N (X : 'M[F]_(N, D)) : M (option (seq pyfloat)) :=
  self <- get_self ;;
  if ~~ isFitted self then
    print NotYetFitted ;; ret None
  else
    ps <- lift (getattr "params" (params self)) ;;
    '(_, sample_ll) <- lift (_e_step self X ps) ;;
    ret (Some sample_ll).

Definition score N (X : 'M[F]_(N, D)) : M (option pyfloat) :=
  self <- get_self ;;
  if ~~ isFitted self then
    print NotYetFitted ;; ret None
  else
    r <- score_samples X ;;
    if r is Some sample_ll then ret (Some (np_mean1 sample_ll))
    else raise (AttributeError "mean").

End Classes.

(** ** The iterates of EM

    [em_iterate self X (params, oldL) k] is the value of the local
    variables [params] and [oldL] of [fit] after [k] more complete
    iterations (an E-step followed by an M-step), when none of them
    raises. *)

Section Iterates.
Context {F : realFieldType} {K D L : nat} {E : Externals F D L}.
Local Open Scope result_scope.

Definition em_state : Type := option (params_dict F K D L) * pyfloat F.

Fixpoint em_iterate (self : model F K D L) N (X : 'M[F]_(N, D))
    (st : em_state) (k : nat) : result em_state :=
  match k with
  | 0%N => Ok st
  | k'.+1 =>
      '(ss, sample_ll) <- _e_step self X st.1 ;;
      params <- _m_step self X ss st.1 ;;
      em_iterate self X (Some params, np_sum1 sample_ll) k'
  end.

(** Iteration [k] (counted from the state [st]) runs its E-step and finds
    [|ll - oldL| < tol]. *)
Definition small_change_at (self : model F K D L) N (X : 'M[F]_(N, D))
    (st : em_state) (k : nat) : Prop :=
  exists p oldL ss sample_ll,
    [/\ em_iterate self X st k = Ok (p, oldL),
        _e_step self X p = Ok (ss, sample_ll)
      & small_change (np_sum1 sample_ll) oldL (tol self)].

(** The statistics of the specification (section 4.3): the mean
    [(sum_n r[n] x_n) / R], the covariance
    [(sum_n r[n] x_n x_n^t) / R - mean mean^t] and the mean of the
    residuals [x_n - W z_n], for [R = sum_n r[n]]; examples are the rows
    of [X]. *)
Definition spec_mean N (X : 'M[F]_(N, D)) (r : 'cV[F]_N) : 'rV[F]_D :=
  (\sum_n r n 0)^-1 *: \sum_n r n 0 *: row n X.

Definition spec_cov N (X : 'M[F]_(N, D)) (r : 'cV[F]_N) : 'M[F]_D :=
  (\sum_n r n 0)^-1 *: (\sum_n r n 0 *: ((row n X)^T *m row n X))
  - (spec_mean X r)^T *m spec_mean X r.

Definition spec_residual_mean N (X : 'M[F]_(N, D)) (z : 'M[F]_(N, L))
    (W : 'M[F]_(D, L)) (r : 'cV[F]_N) : 'rV[F]_D :=
  (\sum_n r n 0)^-1
  *: \sum_n r n 0 *: (row n X - (W *m (row n z)^T)^T).

(** A line of the per-iteration diagnostic. *)
Definition is_iter_line (l : line F) : bool :=
  if l is IterLine _ _ _ then true else false.

(** What [n] iterations print: one diagnostic line each when [verbose]
    is set, nothing otherwise. *)
Definition iter_output (verbose : bool) (n : nat) (ls : seq (line F)) :=
  all is_iter_line ls /\ size ls = if verbose then n else 0%N.

(** The instance after the final assignments of [fit]:
    [self.params = params; self.trainNll = ll; self.isFitted = True]. *)
Definition fitted_with (params : option (params_dict F K D L))
    (ll : pyfloat F) (self : model F K D L) : model F K D L :=
  set_isFitted true (set_trainNll ll (set_params params self)).

(** [params] is what the M-step of iteration [j - 1] returned, or the
    initial parameters [p0] when [j] is the first iteration. *)
Definition from_previous_m_step (self : model F K D L) N (X : 'M[F]_(N, D))
    (p0 : option (params_dict F K D L)) (j : nat)
    (params : option (params_dict F K D L)) : Prop :=
  match j with
  | 0%N => params = p0
  | j'.+1 =>
      exists prev oldL ss sample_ll new,
        [/\ em_iterate self X (p0, NInf) j' = Ok (prev, oldL),
            _e_step self X prev = Ok (ss, sample_ll),
            _m_step self X ss prev = Ok new
          & params = Some new]
  end.

(** A method call signals a failure when it raises. *)
Definition raises {A} (r : result A) : Prop := exists e, r = Raise e.

End Iterates.

(** ** A small instance

    External collaborators over the rationals whose density is constantly
    [1] and whose logarithm is constantly [0], with one component and one
    feature; used to run the model on concrete inputs. *)

Module Example.

#[global] Instance ext : Externals rat 1 1 := {|
  rng_state := unit;
  np_log := fun _ => Fin 0;
  mvn_pdf := fun N _ _ _ => Ok (const_mx 1);
  _mv_gaussian_pdf := fun N _ _ _ => Ok (const_mx 1);
  KMeans_fit := fun N _ _ => Ok (KMeansFit [:: 0] (fun _ => 0%N));
  PCA_fit := fun N _ _ => Ok (const_mx 1, 1);
  FactorAnalysis_fit := fun N _ _ => Ok (const_mx 1, const_mx 1);
  np_random_rand := fun g => (0, g);
  rd_multivariate_normal := fun mu _ g => (Ok mu, g)
|}.

Definition X : 'M[rat]_(1, 1) := const_mx 1.

Definition params0 : params_dict rat 1 1 1 :=
  {| mu_list := Some [:: const_mx 0]; components := Some (const_mx 1);
     Sigma_list := Some [:: 1%:M]; sigma_sq_list := None;
     Psi_list := None; W_list := None |}.

(** A full-covariance dictionary with one component. *)
Definition full (mu : 'rV[rat]_1) (c : 'rV[rat]_1) (S : 'M[rat]_1)
  : params_dict rat 1 1 1 :=
  {| mu_list := Some [:: mu]; components := Some c;
     Sigma_list := Some [:: S]; sigma_sq_list := None;
     Psi_list := None; W_list := None |}.

(** Statistics of a low-rank E-step with one example and one latent
    variable, and the dictionary they go with. *)
Definition low_rank_ss : ss_dict rat 1 1 1 :=
  {| responsibilities := Some (const_mx 1);
     z_list := Some [:: const_mx 1];
     zz_list := Some [:: fun=> 1%:M] |}.

Definition low_rank : params_dict rat 1 1 1 :=
  {| mu_list := Some [:: const_mx 0]; components := Some (const_mx 1);
     Sigma_list := None; sigma_sq_list := None;
     Psi_list := Some [:: 1%:M]; W_list := Some [:: const_mx 1] |}.

(** A fitted [GMM] holding [params0]. *)
Definition fitted_gmm : model rat 1 1 1 :=
  {| class_of := GMM; tol := Fin 1; max_iter := 10; random_state := 0;
     isFitted := true; verbose := true; latent_dim := None;
     data_dim := Some 1%N; params := Some (Some params0);
     trainNll := Some (Fin 0) |}.

(** The interpreter state right after [self] has been constructed. *)
Definition start (self : model rat 1 1 1) : world :=
  {| self_of := self; stdout := [::]; np_random := tt; py_random := None |}.

End Example.

(** ** Notions used by the properties *)

Section MoreDefs.
Context {F : realFieldType} {K D L : nat} {E : Externals F D L}.

(** [params] is a dictionary that some M-step of [self] on [X]
    returned. *)
Definition m_step_output (self : model F K D L) N (X : 'M[F]_(N, D))
    (params : option (params_dict F K D L)) : Prop :=
  exists ss prev new, _m_step self X ss prev = Ok new /\ params = Some new.

(** The attributes that only the constructors assign. *)
Definition config (self : model F K D L) :=
  (class_of self, tol self, max_iter self, random_state self, verbose self,
   latent_dim self).

(** A tolerance that no change is smaller than: [nan], [-inf], or a
    number that is not positive. *)
Definition unreachable_tol (t : pyfloat F) : bool :=
  match t with
  | Fin a => a <= 0
  | NaN | NInf => true
  | PInf => false
  end.

(** The keys that the E-step of a class reads from [params]. *)
Definition required_keys (cls : klass) (p : params_dict F K D L) : bool :=
  [&& isSome (mu_list p), isSome (components p)
    & match cls with
      | GMM => isSome (Sigma_list p)
      | SphericalGMM => isSome (sigma_sq_list p)
      | DiagonalGMM => isSome (Psi_list p)
      | MPPCA => isSome (W_list p) && isSome (sigma_sq_list p)
      | MFA => isSome (W_list p) && isSome (Psi_list p)
      end].

(** The density evaluator that the E-step of a class calls. *)
Definition pdf_of (cls : klass) N (X : 'M[F]_(N, D)) (mu : 'rV[F]_D)
    (Sigma : 'M[F]_D) : result 'cV[F]_N :=
  match cls with
  | GMM | SphericalGMM | DiagonalGMM => mvn_pdf X mu Sigma
  | MPPCA | MFA => _mv_gaussian_pdf X mu Sigma
  end.

(** The classes whose covariance has a low-rank part. *)
Definition low_rank_class (cls : klass) : bool :=
  match cls with
  | MPPCA | MFA => true
  | GMM | SphericalGMM | DiagonalGMM => false
  end.

End MoreDefs.

(** A dictionary for two components that holds one mean and one
    covariance only. *)
Definition one_of_two : params_dict rat 2 1 1 :=
  {| mu_list := Some [:: const_mx 0]; components := Some (const_mx 1);
     Sigma_list := Some [:: 1%:M]; sigma_sq_list := None;
     Psi_list := None; W_list := None |}.

(** ** Properties *)

Section FloatFacts.
Variable F : realFieldType.

(** Against [oldL = -inf] the change is infinite or [nan]: the test
    [np.abs(ll - oldL) < tol] fails whatever [ll] and [tol] are. *)
Lemma small_change_NInf (ll tol : pyfloat F) :
  small_change ll NInf tol = false.
Proof. by case: ll => [a|||]; case: tol => [t|||]. Qed.

Lemma np_sum1_const0 (A : Type) (s : seq A) :
  np_sum1 [seq Fin (0 : F) | _ <- s] = Fin 0.
Proof.
rewrite /np_sum1; elim: s => [|x s IH] //=.
by rewrite addr0.
Qed.

End FloatFacts.

Section Unfitted.
Context {F : realFieldType} {K D L : nat} {E : Externals F D L}.

(** C1, as the code has it: on an instance whose [isFitted] flag is not
    set, [sample], [score_samples] and [score] print the "not yet fitted"
    message and return [None]; nothing is raised and the instance is left
    as it was. *)
Theorem unfitted_prints_and_returns_None (w : @world F K D L E)
    (n_samples N : nat) (X : 'M[F]_(N, D)) :
  isFitted (self_of w) = false ->
  [/\ sample n_samples w = (Ok None, printed [:: NotYetFitted] w),
      score_samples X w = (Ok None, printed [:: NotYetFitted] w)
    & score X w = (Ok None, printed [:: NotYetFitted] w)].
Proof.
move=> unfit.
by split; rewrite /sample /score_samples /score /mbind /get_self /= unfit.
Qed.

End Unfitted.

(** C1 at a freshly constructed [GMM]. *)
Lemma unfitted_prints_and_returns_None_witness :
  let w := Example.start (GMM_init GMM (Fin 1) 10 0 true) in
  [/\ sample 1 w = (Ok None, printed [:: NotYetFitted] w),
      score_samples Example.X w = (Ok None, printed [:: NotYetFitted] w)
    & score Example.X w = (Ok None, printed [:: NotYetFitted] w)].
Proof. exact: unfitted_prints_and_returns_None. Defined.

(** C1 as the specification states it fails: before any [fit], the three
    methods return normally (with [None]) instead of raising. *)
Lemma unfitted_does_not_raise :
  let w := Example.start (GMM_init GMM (Fin 1) 10 0 true) in
  [/\ ~ raises (sample 1 w).1,
      ~ raises (score_samples Example.X w).1
    & ~ raises (score Example.X w).1].
Proof. by split; case. Qed.

Section Constructors.
Context {F : realFieldType} {K D L : nat}.

(** C2 (the code departs from it): whatever [tol], [max_iter],
    [random_state] and [verbose] are passed to [MPPCA] or [MFA], the
    instance holds the defaults [1e-3], [1000], [0] and [True], because the
    constructors pass these literals to the parent; [GMM]'s own constructor
    stores its arguments.  With [max_iter=10] and [verbose=False] the
    stored values are [1000] and [True]. *)
Theorem low_rank_constructors_drop_arguments
    (tol_arg : pyfloat F) (max_iter_arg random_state_arg : int)
    (verbose_arg : bool) (cls : klass) :
  let stored (m : model F K D L) :=
    (tol m, max_iter m, random_state m, verbose m) in
  let defaults :=
    (default_tol, default_max_iter, default_random_state, default_verbose) in
  [/\ stored (MPPCA_init tol_arg max_iter_arg random_state_arg verbose_arg)
      = defaults,
      stored (MFA_init tol_arg max_iter_arg random_state_arg verbose_arg)
      = defaults,
      stored (GMM_init cls tol_arg max_iter_arg random_state_arg verbose_arg)
      = (tol_arg, max_iter_arg, random_state_arg, verbose_arg)
    & stored (MPPCA_init (Fin (1 / 2%:R)) 10 7 false)
      <> (Fin (1 / 2%:R), 10%:Z, 7%:Z, false)].
Proof. by split. Qed.

End Constructors.

Section FitLoop.
Context {F : realFieldType} {K D L : nat} {E : Externals F D L}.
Variables (N : nat) (X : 'M[F]_(N, D)).
Implicit Types (w : @world F K D L E) (p : option (params_dict F K D L)).
Implicit Types (o : pyfloat F) (ll : option (pyfloat F)).
Implicit Types (self : model F K D L) (st : @em_state F K D L).

Lemma printed_nil w : printed [::] w = w.
Proof. by case: w => m out g s; rewrite /printed /= cats0. Qed.

Lemma printed_cat ls1 ls2 w :
  printed ls2 (printed ls1 w) = printed (ls1 ++ ls2) w.
Proof. by rewrite /printed /= catA. Qed.

(** The state after [k.+1] iterations is one more iteration after the
    state after [k]. *)
Lemma em_iterate_last self st k :
  em_iterate self X st k.+1
  = rbind (em_iterate self X st k) (fun st' => em_iterate self X st' 1).
Proof.
have unfold_S st' k' :
    em_iterate self X st' k'.+1
    = rbind (_e_step self X st'.1) (fun r =>
        rbind (_m_step self X r.1 st'.1) (fun params =>
          em_iterate self X (Some params, np_sum1 r.2) k')).
  by rewrite /=; case: (_e_step self X st'.1) => [[ss sll]|e].
elim: k st => [|k IH] st; first by [].
rewrite (unfold_S st k.+1) (unfold_S st k).
case: (_e_step self X st.1) => [r|e]; last by [].
rewrite /rbind -/(rbind _ _).
case: (_m_step self X r.1 st.1) => [p1|e]; last by [].
exact: IH.
Qed.

Lemma small_change_at_next self p o k ss sll (new : params_dict F K D L) :
  _e_step self X p = Ok (ss, sll) ->
  _m_step self X ss p = Ok new ->
  small_change_at self X (Some new, np_sum1 sll) k ->
  small_change_at self X (p, o) k.+1.
Proof.
move=> He Hm [pk [ok [ssk [sllk [H1 H2 H3]]]]].
by exists pk, ok, ssk, sllk; split=> //=; rewrite He /= Hm.
Qed.

Lemma iter_output_step (b : bool) n (l : line F) ls :
  is_iter_line l -> iter_output b n ls ->
  iter_output b n.+1 ((if b then [:: l] else [::]) ++ ls).
Proof.
move=> Hl [Hall Hsz]; split.
  by rewrite all_cat Hall andbT; case: (b) => //=; rewrite Hl.
by rewrite size_cat Hsz; case: (b).
Qed.

(** The loop leaves by [break] at the first iteration with a small
    change, with the parameters that iteration started from. *)
Lemma fit_loop_break j todo i p o ll w pj oj ss sll :
  (j < todo)%N ->
  em_iterate (self_of w) X (p, o) j = Ok (pj, oj) ->
  _e_step (self_of w) X pj = Ok (ss, sll) ->
  small_change (np_sum1 sll) oj (tol (self_of w)) ->
  (forall k, (k < j)%N -> ~ small_change_at (self_of w) X (p, o) k) ->
  exists2 ls, iter_output (verbose (self_of w)) j.+1 ls &
    fit_loop X todo i p o ll w
    = (Ok (LoopExit pj (Some (np_sum1 sll)) true), printed ls w).
Proof.
elim: j todo i p o ll w => [|j IH] [|todo] i p o ll w //.
- move=> _ [<- <-] He Hs _.
  exists (if verbose (self_of w) then
            [:: IterLine i (fopp (np_sum1 sll))
                  (fopp (fsub (np_sum1 sll) o))]
          else [::]); first by split; case: (verbose _).
  rewrite /= /mbind /= /lift He /=.
  by case: (verbose _); rewrite /= Hs //= printed_nil.
- rewrite ltnS => Hj /=.
  case He0: (_e_step (self_of w) X p) => [[ss0 sll0]|e] //=.
  case Hm0: (_m_step (self_of w) X ss0 p) => [p1|e] //= Hit He Hs Hfirst.
  have Hns : small_change (np_sum1 sll0) o (tol (self_of w)) = false.
    apply/negP => Hs0; apply: (Hfirst 0%N) => //.
    by exists p, o, ss0, sll0.
  set l := IterLine i (fopp (np_sum1 sll0)) (fopp (fsub (np_sum1 sll0) o)).
  set w1 := printed (if verbose (self_of w) then [:: l] else [::]) w.
  have [|ls Hls Hrun] :=
    IH todo i.+1 (Some p1) (np_sum1 sll0) (Some (np_sum1 sll0)) w1 Hj Hit
       He Hs.
    move=> k Hk Hat; apply: (Hfirst k.+1) => //.
    exact: small_change_at_next He0 Hm0 Hat.
  exists ((if verbose (self_of w) then [:: l] else [::]) ++ ls).
    exact: iter_output_step.
  rewrite /mbind /= /lift He0 /= -printed_cat -/w1 -Hrun.
  by rewrite /w1; case: (verbose _); rewrite /= Hns /= Hm0 //= printed_nil.
Qed.

(** The loop runs out of values of [i] when no iteration finds a small
    change: [ll] is then the log-likelihood of the last iteration, if
    there was one. *)
Lemma fit_loop_exhausted n i p o ll w pn on :
  em_iterate (self_of w) X (p, o) n = Ok (pn, on) ->
  (forall k, (k < n)%N -> ~ small_change_at (self_of w) X (p, o) k) ->
  exists2 ls, iter_output (verbose (self_of w)) n ls &
    fit_loop X n i p o ll w
    = (Ok (LoopExit pn (if n is 0%N then ll else Some on) false),
       printed ls w).
Proof.
elim: n i p o ll w => [|n IH] i p o ll w.
  move=> [<- _] _; exists [::]; last by rewrite printed_nil.
  by split=> //; case: (verbose _).
rewrite /=.
case He0: (_e_step (self_of w) X p) => [[ss0 sll0]|e] //=.
case Hm0: (_m_step (self_of w) X ss0 p) => [p1|e] //= Hit Hfirst.
have Hns : small_change (np_sum1 sll0) o (tol (self_of w)) = false.
  apply/negP => Hs0; apply: (Hfirst 0%N) => //.
  by exists p, o, ss0, sll0.
set l := IterLine i (fopp (np_sum1 sll0)) (fopp (fsub (np_sum1 sll0) o)).
set w1 := printed (if verbose (self_of w) then [:: l] else [::]) w.
have [|ls Hls Hrun] :=
  IH i.+1 (Some p1) (np_sum1 sll0) (Some (np_sum1 sll0)) w1 Hit.
  move=> k Hk Hat; apply: (Hfirst k.+1) => //.
  exact: small_change_at_next He0 Hm0 Hat.
exists ((if verbose (self_of w) then [:: l] else [::]) ++ ls).
  exact: iter_output_step.
rewrite /mbind /= /lift He0 /= -printed_cat -/w1.
have Hll : (if n is 0%N then Some (np_sum1 sll0) else Some on) = Some on.
  by case: n Hit {IH Hfirst Hls Hrun} => [[_ ->]|].
rewrite Hll in Hrun; rewrite -[in RHS]Hrun.
by rewrite /w1; case: (verbose _); rewrite /= Hns /= Hm0 //= printed_nil.
Qed.

End FitLoop.

Section Fit.
Context {F : realFieldType} {K D L : nat} {E : Externals F D L}.
Variables (N : nat) (X : 'M[F]_(N, D)).
Implicit Types (w : @world F K D L E) (p : option (params_dict F K D L)).
Implicit Types (self : model F K D L).

(** [fit] once the initial parameters are known and the loop has run: the
    [else] branch of the loop, then the three assignments. *)
Lemma fit_after_loop w params_init init_method p0 w2 ex ls :
  initial_params X params_init init_method (updated (set_data_dim D) w)
  = (Ok p0, w2) ->
  fit_loop X (range_len (max_iter (self_of w2))) 0 p0 NInf None w2
  = (Ok ex, printed ls w2) ->
  let out :=
    ls ++ (if ~~ exit_break ex && verbose (self_of w2)
           then [:: DidNotConverge] else [::]) in
  fit X params_init init_method w
  = if exit_ll ex is Some ll then
      (Ok tt, updated (fitted_with (exit_params ex) ll) (printed out w2))
    else
      (Raise (UnboundLocalError "ll"),
       updated (set_params (exit_params ex)) (printed out w2)).
Proof.
move=> Hinit Hloop /=.
rewrite /fit /mbind /= Hinit /= Hloop /=.
case: (exit_break ex) => /=; last case: (verbose (self_of w2)) => /=.
- by rewrite cats0; case: (exit_ll ex).
- by rewrite printed_cat; case: (exit_ll ex).
- by rewrite cats0; case: (exit_ll ex).
Qed.

Lemma previous_m_step self p0 j pj oj :
  em_iterate self X (p0, NInf) j = Ok (pj, oj) ->
  from_previous_m_step self X p0 j pj.
Proof.
case: j => [[<- _]|j] //; rewrite em_iterate_last.
case Hj: (em_iterate self X (p0, NInf) j) => [[prev oldL]|e] //=.
case He: (_e_step self X prev) => [[ss sll]|e] //=.
case Hm: (_m_step self X ss prev) => [new|e] //= [<- _].
by exists prev, oldL, ss, sll, new.
Qed.

(** C3: when iteration [j] is the first one whose total log-likelihood is
    within [tol] of the previous one, [fit] leaves the loop there without
    running that iteration's M-step and returns.  In the state [w'] it
    ends in, [self.params] is the dictionary that iteration [j] started
    from, which is the one returned by the M-step of iteration [j - 1]
    (the initial parameters for [j = 0]); [self.trainNll] is that
    iteration's log-likelihood, [self.isFitted] is set, and only the
    per-iteration diagnostics have been printed. *)
Theorem fit_stops_at_first_small_change w params_init init_method p0 w2
    j pj oj ss sample_ll :
  initial_params X params_init init_method (updated (set_data_dim D) w)
  = (Ok p0, w2) ->
  (j < range_len (max_iter (self_of w2)))%N ->
  em_iterate (self_of w2) X (p0, NInf) j = Ok (pj, oj) ->
  _e_step (self_of w2) X pj = Ok (ss, sample_ll) ->
  small_change (np_sum1 sample_ll) oj (tol (self_of w2)) ->
  (forall k, (k < j)%N -> ~ small_change_at (self_of w2) X (p0, NInf) k) ->
  from_previous_m_step (self_of w2) X p0 j pj /\
  exists2 ls, iter_output (verbose (self_of w2)) j.+1 ls &
    exists2 w',
      fit X params_init init_method w = (Ok tt, w')
      /\ w' = updated (fitted_with pj (np_sum1 sample_ll)) (printed ls w2)
    & [/\ params (self_of w') = Some pj,
          trainNll (self_of w') = Some (np_sum1 sample_ll),
          isFitted (self_of w') = true,
          stdout w' = stdout w2 ++ ls
        & data_dim (self_of w') = data_dim (self_of w2)
          /\ config (self_of w') = config (self_of w2)].
Proof.
move=> Hinit Hj Hit He Hs Hfirst; split; first exact: previous_m_step Hit.
have [ls Hls Hloop] := fit_loop_break 0 None Hj Hit He Hs Hfirst.
exists ls => //.
rewrite (fit_after_loop Hinit Hloop) /= cats0.
by eexists; first by split; reflexivity.
Qed.

(** C4, as the code has it: when the loop runs at least once and all
    [max_iter] iterations complete without a small change, [fit] returns
    normally.  In the state [w'] it ends in, [self.params] is the
    dictionary returned by the last M-step, [self.trainNll] is the last
    log-likelihood, [self.isFitted] is set, and the output is the
    per-iteration diagnostics followed by the "did not converge" line
    exactly when [verbose] is set. *)
Theorem fit_exhausted_keeps_last_params w params_init init_method p0 w2
    pn lln :
  initial_params X params_init init_method (updated (set_data_dim D) w)
  = (Ok p0, w2) ->
  let n := range_len (max_iter (self_of w2)) in
  (0 < n)%N ->
  em_iterate (self_of w2) X (p0, NInf) n = Ok (pn, lln) ->
  (forall k, (k < n)%N -> ~ small_change_at (self_of w2) X (p0, NInf) k) ->
  from_previous_m_step (self_of w2) X p0 n pn /\
  exists2 ls, iter_output (verbose (self_of w2)) n ls &
    exists2 w',
      fit X params_init init_method w = (Ok tt, w')
      /\ w' = updated (fitted_with pn lln)
                (printed (ls ++ (if verbose (self_of w2)
                                 then [:: DidNotConverge] else [::])) w2)
    & [/\ params (self_of w') = Some pn,
          trainNll (self_of w') = Some lln,
          isFitted (self_of w') = true,
          stdout w'
          = stdout w2 ++ ls ++ (if verbose (self_of w2)
                                then [:: DidNotConverge] else [::])
        & data_dim (self_of w') = data_dim (self_of w2)
          /\ config (self_of w') = config (self_of w2)].
Proof.
move=> Hinit n Hn Hit Hfirst; split; first exact: previous_m_step Hit.
have [ls Hls Hloop] := fit_loop_exhausted 0 None Hit Hfirst.
exists ls => //.
rewrite (fit_after_loop Hinit Hloop) /=.
have -> : (if n is 0%N then None else Some lln) = Some lln by case: (n) Hn.
by eexists; first by split; reflexivity.
Qed.

End Fit.

Section FirstIteration.
Context {F : realFieldType} {K D L : nat} {E : Externals F D L}.

(** The first iteration never finds a small change, since [oldL] is
    [-inf] there. *)
Lemma first_iteration_not_small (self : model F K D L) N (X : 'M[F]_(N, D))
    (p0 : option (params_dict F K D L)) :
  ~ small_change_at self X (p0, NInf) 0.
Proof.
by case=> p [o [ss [sll [[_ <-] _]]]]; rewrite small_change_NInf.
Qed.

End FirstIteration.

(** In the small instance every log-likelihood is [0], and an iteration of
    a [GMM] maps a one-component dictionary to a one-component
    dictionary. *)
Lemma example_ll (r_sum : 'cV[rat]_1) :
  np_sum1 (@log_rows _ _ _ Example.ext _ r_sum) = Fin 0.
Proof. exact: np_sum1_const0. Qed.

Lemma example_iterate (self : model rat 1 1 1) mu c S o k :
  class_of self = GMM ->
  exists mu' c' S',
    em_iterate self Example.X (Some (Example.full mu c S), o) k
    = Ok (Some (Example.full mu' c' S'), if k is 0%N then o else Fin 0).
Proof.
move=> Hcls; elim: k mu c S o => [|k IH] mu c S o.
  by exists mu, c, S.
rewrite /= /_e_step /_m_step Hcls /GMM_e_step /GMM_m_step /=.
rewrite /_params_to_Sigma Hcls /= /columns enum_ordSl enum_ord0 /=.
rewrite example_ll.
set mu1 := weighted_mean _ _; set c1 := np_mean_axis0 _.
set S1 := weighted_cov _ _ _.
have [mu' [c' [S' ->]]] := IH mu1 c1 S1 (Fin 0).
by exists mu', c', S'; case: (k).
Qed.

(** C3 on the small instance: the second iteration finds the same
    log-likelihood as the first, and [fit] stops there. *)
Lemma fit_stops_at_first_small_change_witness :
  let w := Example.start (GMM_init GMM (Fin 1) 10 0 true) in
  exists pj ls w',
    [/\ fit Example.X (Some Example.params0) "kmeans" w = (Ok tt, w'),
        params (self_of w') = Some pj,
        trainNll (self_of w') = Some (Fin 0),
        isFitted (self_of w') = true
      & stdout w' = ls /\ size ls = 2%N].
Proof.
move=> w.
have [mu [c [S Hit]]] :=
  @example_iterate (self_of (updated (set_data_dim 1) w)) (const_mx 0)
    (const_mx 1) 1%:M NInf 1 erefl.
have [] := @fit_stops_at_first_small_change rat 1 1 1 Example.ext 1
  Example.X w (Some Example.params0) "kmeans" (Some Example.params0)
  (updated (set_data_dim 1) w) 1 _ _ _ _ erefl erefl Hit erefl.
- by rewrite !example_ll /small_change /= subrr normr0.
- by case=> // _; exact: first_iteration_not_small.
- move=> _ [ls [_ Hsz] [w' [Hfit _] [Hp Hn Hf Hout _]]].
  exists (Some (Example.full mu c S)), ls, w'; split=> //.
  by rewrite Hn example_ll.
Defined.

Section ZeroTolerance.
Context {F : realFieldType} {K D L : nat} {E : Externals F D L}.

(** With [tol = 0] no change is ever small. *)
Lemma small_change_tol0 (ll oldL : pyfloat F) :
  small_change ll oldL (Fin 0) = false.
Proof.
rewrite /small_change; case: (fsub ll oldL) => [a|||] //=.
by rewrite ltNge normr_ge0.
Qed.

Lemma never_small_tol0 (self : model F K D L) N (X : 'M[F]_(N, D))
    (st : em_state) k :
  tol self = Fin 0 -> ~ small_change_at self X st k.
Proof.
by move=> Htol [p [o [ss [sll [_ _]]]]]; rewrite Htol small_change_tol0.
Qed.

End ZeroTolerance.

(** C4 on the small instance: with [tol = 0] both iterations of a verbose
    [GMM] complete, and the "did not converge" line ends the output. *)
Lemma fit_exhausted_keeps_last_params_witness :
  let w := Example.start (GMM_init GMM (Fin 0) 2 0 true) in
  exists pn ls w',
    [/\ fit Example.X (Some Example.params0) "kmeans" w = (Ok tt, w'),
        params (self_of w') = Some pn,
        trainNll (self_of w') = Some (Fin 0),
        isFitted (self_of w') = true
      & stdout w' = ls ++ [:: DidNotConverge] /\ size ls = 2%N].
Proof.
move=> w.
have [mu [c [S Hit]]] :=
  @example_iterate (self_of (updated (set_data_dim 1) w)) (const_mx 0)
    (const_mx 1) 1%:M NInf 2 erefl.
have [] := @fit_exhausted_keeps_last_params rat 1 1 1 Example.ext 1
  Example.X w (Some Example.params0) "kmeans" (Some Example.params0)
  (updated (set_data_dim 1) w) _ _ erefl erefl Hit.
- by move=> k _; exact: never_small_tol0.
- move=> _ [ls [_ Hsz] [w' [Hfit _] [Hp Hn Hf Hout _]]].
  by exists (Some (Example.full mu c S)), ls, w'.
Defined.

(** C4 as the specification states it fails: a [GMM] built with
    [verbose=False] whose single iteration completes without a small change
    becomes fitted, and nothing at all is printed. *)
Lemma quiet_exhausted_fit_prints_nothing :
  let w := Example.start (GMM_init GMM (Fin 0) 1 0 false) in
  (forall k, ~ small_change_at (self_of (updated (set_data_dim 1) w))
                 Example.X (Some Example.params0, NInf) k) /\
  exists w',
    [/\ fit Example.X (Some Example.params0) "kmeans" w = (Ok tt, w'),
        isFitted (self_of w') = true
      & stdout w' = [::]].
Proof.
move=> w; split; first by move=> k; exact: never_small_tol0.
have [mu [c [S Hit]]] :=
  @example_iterate (self_of (updated (set_data_dim 1) w)) (const_mx 0)
    (const_mx 1) 1%:M NInf 1 erefl.
have [|ls [_ Hsz] Hloop] := fit_loop_exhausted 0 None Hit.
  by move=> k _; exact: never_small_tol0.
have Hinit :
    initial_params Example.X (Some Example.params0) "kmeans"
      (updated (set_data_dim 1) w)
    = (Ok (Some Example.params0), updated (set_data_dim 1) w) by [].
rewrite (fit_after_loop Hinit Hloop) /=.
by eexists; split; first by []; rewrite //= (size0nil Hsz).
Qed.

Section NoIteration.
Context {F : realFieldType} {K D L : nat} {E : Externals F D L}.
Variables (N : nat) (X : 'M[F]_(N, D)).

(** When [range(self.max_iter)] is empty, [fit] runs no iteration, prints
    the "did not converge" line if [verbose] is set, assigns
    [self.params] and then fails on the unbound [ll]. *)
Lemma fit_without_iterations (w : @world F K D L E) params_init init_method
    p0 w2 :
  initial_params X params_init init_method (updated (set_data_dim D) w)
  = (Ok p0, w2) ->
  range_len (max_iter (self_of w2)) = 0%N ->
  fit X params_init init_method w
  = (Raise (UnboundLocalError "ll"),
     updated (set_params p0)
       (printed (if verbose (self_of w2) then [:: DidNotConverge]
                 else [::]) w2)).
Proof.
move=> Hinit Hn.
have Hloop :
    fit_loop X (range_len (max_iter (self_of w2))) 0 p0 NInf None w2
    = (Ok (LoopExit p0 None false), printed [::] w2).
  by rewrite Hn printed_nil.
by rewrite (fit_after_loop Hinit Hloop).
Qed.

(** C9 (the code departs from it for two classes): a [GMM],
    [SphericalGMM] or [DiagonalGMM] constructed with [max_iter=0] runs no
    iteration, fails on the unbound [ll] and stays unfitted; an [MPPCA] or
    [MFA] constructed with [max_iter=0] holds [max_iter = 1000], so its
    [fit] enters the loop: given the dictionary [{}] the E-step of the
    first iteration raises [KeyError]. *)
Theorem max_iter_zero_by_class (cls : klass) (tol_arg : pyfloat F)
    (random_state_arg : int) (verbose_arg : bool)
    (p0 : params_dict F K D L) (init_method : string)
    (out : seq (line F)) (g : rng_state) (s : option int) :
  let run (self : model F K D L) :=
    fit X (Some p0) init_method (World self out g s) in
  let run_empty (self : model F K D L) :=
    fit X (Some no_keys) init_method (World self out g s) in
  [/\ let self := GMM_init cls tol_arg 0 random_state_arg verbose_arg in
      run self
      = (Raise (UnboundLocalError "ll"),
         World (set_params (Some p0) (set_data_dim D self))
           (out ++ (if verbose_arg then [:: DidNotConverge] else [::])) g s)
      /\ isFitted (set_params (Some p0) (set_data_dim D self)) = false,
      let self := MPPCA_init tol_arg 0 random_state_arg verbose_arg in
      max_iter self = 1000%:Z /\
      run_empty self
      = (Raise (KeyError "mu_list"), World (set_data_dim D self) out g s)
    & let self := MFA_init tol_arg 0 random_state_arg verbose_arg in
      max_iter self = 1000%:Z /\
      run_empty self
      = (Raise (KeyError "mu_list"), World (set_data_dim D self) out g s)].
Proof.
split=> /=.
- split=> //.
  set self := GMM_init _ _ _ _ _.
  by rewrite (@fit_without_iterations (World self out g s) (Some p0)
                init_method (Some p0)
                (updated (set_data_dim D) (World self out g s)) erefl erefl).
- by [].
- by [].
Qed.

(** C10, as the code has it: with [params_init] absent and an
    [init_method] other than ['kmeans'], [_init_params] returns [None]
    (after seeding), whatever the class; when [range(self.max_iter)] is
    not empty, [fit] then enters the E-step, where subscripting [None]
    raises [TypeError], and the instance stays as it was but for
    [data_dim]. *)
Theorem fit_unsupported_init_method (w : @world F K D L E)
    (init_method : string) :
  String.eqb init_method "kmeans" = false ->
  (0 < range_len (max_iter (self_of w)))%N ->
  let self := set_data_dim D (self_of w) in
  let w2 := World self (stdout w) (np_random w)
              (Some (random_state (self_of w))) in
  [/\ _init_params init_method X (updated (set_data_dim D) w)
      = (Ok None, w2),
      _e_step self X None = Raise TypeError
    & fit X None init_method w = (Raise TypeError, w2)].
Proof.
move=> Hm Hn /=.
have Hinit :
    _init_params init_method X (updated (set_data_dim D) w)
    = (Ok None,
       World (set_data_dim D (self_of w)) (stdout w) (np_random w)
         (Some (random_state (self_of w)))).
  rewrite /_init_params /mbind /=.
  by case: (class_of (self_of w));
     rewrite /GMM_init_params /SphericalGMM_init_params
       /DiagonalGMM_init_params /MPPCA_init_params /MFA_init_params
       /mbind /= Hm.
have He : _e_step (set_data_dim D (self_of w)) X None = Raise TypeError.
  by rewrite /_e_step /=; case: (class_of (self_of w)).
split=> //.
rewrite /fit /mbind /= /initial_params Hinit /=.
by case: (range_len _) Hn => //= n _; rewrite /mbind /= /lift He.
Qed.

End NoIteration.

(** C10 on a [GMM] with the default [max_iter]. *)
Lemma fit_unsupported_init_method_witness :
  let self := GMM_init GMM (Fin 1) 1000 0 true in
  fit Example.X None "random" (Example.start self)
  = (Raise TypeError, World (set_data_dim 1 self) [::] tt (Some 0)).
Proof.
by case: (@fit_unsupported_init_method rat 1 1 1 Example.ext 1 Example.X
            (Example.start (GMM_init GMM (Fin 1) 1000 0 true)) "random"
            erefl erefl).
Defined.

(** C10 as stated fails when no iteration is run: a [GMM] built with
    [max_iter=0] and fitted with [init_method='random'] never enters the
    E-step; it fails on the unbound [ll] instead. *)
Lemma unsupported_init_without_iterations :
  let self := GMM_init GMM (Fin 1) 0 0 true in
  fit Example.X None "random" (Example.start self)
  = (Raise (UnboundLocalError "ll"),
     World (set_params None (set_data_dim 1 self)) [:: DidNotConverge] tt
       (Some 0))
  /\ UnboundLocalError "ll" <> TypeError.
Proof. by []. Qed.

Lemma rbind_Ok (A B : Type) (x : result A) (f : A -> result B) (y : B) :
  rbind x f = Ok y -> exists2 a, x = Ok a & f a = Ok y.
Proof. by case: x => [a|e] //= Hf; exists a. Qed.

Section ResultFacts.
Variables (A B : Type).

(** A loop that did not raise produced one result per element, in
    order. *)
Lemma traverse_nth (f : A -> result B) (l : seq A) (ys : seq B) x0 y0 :
  traverse f l = Ok ys ->
  size ys = size l /\
  forall i, (i < size l)%N -> f (nth x0 l i) = Ok (nth y0 ys i).
Proof.
elim: l ys => [|x l IH] ys /=; first by case=> <-.
case Hy: (f x) => [y|e] //=.
case Hys: (traverse f l) => [ys'|e] //= [<-].
have [Hsz Hnth] := IH _ Hys.
split; first by rewrite /= Hsz.
by case=> [|i] //=; rewrite ltnS; exact: Hnth.
Qed.

End ResultFacts.

Section MStepFormulas.
Context {F : realFieldType} {K D L : nat} {E : Externals F D L}.
Variables (N : nat) (X : 'M[F]_(N, D)).
Implicit Types (self : model F K D L) (r : 'cV[F]_N).
Implicit Types (resp : 'M[F]_(N, K)).

(** The code's weighted mean and covariance are those of the
    specification. *)
Lemma weighted_mean_spec (A : 'M[F]_(N, D)) r :
  weighted_mean A r = spec_mean A r.
Proof.
apply/rowP=> i; rewrite /weighted_mean /spec_mean !mxE summxE mulrC.
by congr (_ * _); apply: eq_bigr => n _; rewrite !mxE mulrC.
Qed.

Lemma weighted_cov_spec r :
  weighted_cov X r (weighted_mean X r) = spec_cov X r.
Proof.
rewrite /weighted_cov /spec_cov /np_outer weighted_mean_spec.
congr (_ - _); apply/matrixP=> i j; rewrite !mxE summxE mulrC.
congr (_ * _); apply: eq_bigr => n _.
by rewrite !mxE big_ord1 !mxE mulrA [X n i * _]mulrC.
Qed.

Lemma nth_columns resp (k : 'I_K) :
  nth 0 (columns resp) k = col k resp.
Proof.
rewrite /columns; case: K k resp => [[] //|K'] k resp.
by rewrite (nth_map ord0) ?size_enum_ord // nth_ord_enum.
Qed.

Lemma size_columns resp : size (columns resp) = K.
Proof. by rewrite size_map size_enum_ord. Qed.

(** C6: the M-step of the full-covariance [GMM] returns, for every
    component [k], the mean [(sum_n r_k[n] x_n) / R_k] and the covariance
    [(sum_n r_k[n] x_n x_n^t) / R_k - mean_k mean_k^t] of the
    specification, where [r_k] is column [k] of the responsibilities. *)
Theorem full_covariance_m_step self resp zl zzl params :
  exists mus Sigmas,
    [/\ GMM_m_step self X (Stats (Some resp) zl zzl) params
        = Ok {| mu_list := Some mus;
                components := Some (np_mean_axis0 resp);
                Sigma_list := Some Sigmas; sigma_sq_list := None;
                Psi_list := None; W_list := None |},
        size mus = K /\ size Sigmas = K
      & forall k : 'I_K,
          nth 0 mus k = spec_mean X (col k resp) /\
          nth 0 Sigmas k = spec_cov X (col k resp)].
Proof.
exists [seq weighted_mean X r | r <- columns resp],
  [seq weighted_cov X r (weighted_mean X r) | r <- columns resp].
split.
- by rewrite /GMM_m_step /= /unzip1 /unzip2 -!map_comp.
- by split; rewrite size_map size_columns.
- move=> k; rewrite !(nth_map 0) ?size_columns // nth_columns.
  by rewrite weighted_cov_spec weighted_mean_spec.
Qed.

End MStepFormulas.

Section LowRankMean.
Context {F : realFieldType} {K D L : nat} {E : Externals F D L}.
Variables (N : nat) (X : 'M[F]_(N, D)).
Implicit Types (self : model F K D L) (r : 'cV[F]_N).
Implicit Types (z : 'M[F]_(N, L)) (W : 'M[F]_(D, L)).

(** The weighted mean of the residual [X - z.dot(W.T)] is the
    specification's weighted mean of the [x_n - W z_n]. *)
Lemma weighted_mean_resid z W r :
  weighted_mean (resid X z W) r = spec_residual_mean X z W r.
Proof.
rewrite weighted_mean_spec /spec_mean /spec_residual_mean.
congr (_ *: _); apply: eq_bigr => n _; congr (_ *: _).
apply/rowP=> i; rewrite !mxE; congr (_ - _).
by apply: eq_bigr => l _; rewrite !mxE mulrC.
Qed.

(** It differs from the plain weighted mean of the data by the weighted
    mean of the reconstructions [z.dot(W.T)]. *)
Lemma spec_residual_mean_split z W r :
  spec_residual_mean X z W r = spec_mean X r - spec_mean (z *m W^T) r.
Proof.
rewrite -weighted_mean_resid weighted_mean_spec /spec_mean /resid.
rewrite -scalerBr -sumrB; congr (_ *: _); apply: eq_bigr => n _.
by rewrite -scalerBr; congr (_ *: _); apply/rowP=> i; rewrite !mxE.
Qed.

(** Entry [k] of [zip(resp.T, W_list_old, z_list, zz_list)]. *)
Lemma nth_zip4 (resp : 'M[F]_(N, K)) (Wl : seq 'M[F]_(D, L))
    (zl : seq 'M[F]_(N, L)) (zzl : seq ('I_N -> 'M[F]_L)) (k : 'I_K) it0 :
  (k < size (zip4 (columns resp) Wl zl zzl))%N ->
  exists zz,
    nth it0 (zip4 (columns resp) Wl zl zzl) k
    = (col k resp, (nth 0 Wl k, (nth 0 zl k, zz))).
Proof.
case: it0 => c0 [W0 [z0 zz0]].
rewrite /zip4 !size_zip !leq_min => /and4P[Hc HW Hz Hzz].
exists (nth zz0 zzl k).
rewrite !nth_zip_cond !size_zip !leq_min Hc HW Hz Hzz /=.
by rewrite (set_nth_default 0 c0) // (set_nth_default 0 W0) //
           (set_nth_default 0 z0) // nth_columns.
Qed.

(** C7: when the M-step of [MPPCA] or of [MFA] returns, every mean it
    returns is the responsibility-weighted average of the residuals
    [x_n - W z_n], with [W] the old loading matrix of the component and
    [z_n] the rows of its E-step statistic [z]; it is the plain weighted
    average of the data minus that of the reconstructions. *)
Theorem low_rank_m_step_mean self (resp : 'M[F]_(N, K))
    (zl : seq 'M[F]_(N, L)) (zzl : seq ('I_N -> 'M[F]_L))
    (old : params_dict F K D L) (Wl : seq 'M[F]_(D, L))
    (new : params_dict F K D L) :
  W_list old = Some Wl ->
  let ss := Stats (Some resp) (Some zl) (Some zzl) in
  MPPCA_m_step self X ss (Some old) = Ok new
  \/ MFA_m_step self X ss (Some old) = Ok new ->
  exists mus,
    [/\ mu_list new = Some mus,
        size mus = minn K (minn (size Wl) (minn (size zl) (size zzl)))
      & forall k : 'I_K, (k < size mus)%N ->
          let r := col k resp in
          let z := nth 0 zl k in
          let W := nth 0 Wl k in
          nth 0 mus k = spec_residual_mean X z W r /\
          nth 0 mus k = spec_mean X r - spec_mean (z *m W^T) r].
Proof.
move=> HW ss.
set l := zip4 (columns resp) Wl zl zzl.
have Hl : size l = minn K (minn (size Wl) (minn (size zl) (size zzl))).
  by rewrite /l /zip4 !size_zip size_columns.
pose it0 : 'cV[F]_N * ('M[F]_(D, L) * ('M[F]_(N, L) * ('I_N -> 'M[F]_L)))
  := (0, (0, (0, fun=> 0))).
have body (T : Type) (y0 : 'rV[F]_D * T) (f : _ -> result ('rV[F]_D * T))
    (upd : seq _) :
    (forall r W z zz y, f (r, (W, (z, zz))) = Ok y ->
       y.1 = weighted_mean (resid X z W) r) ->
    traverse f l = Ok upd ->
    size (unzip1 upd) = size l /\
    forall k : 'I_K, (k < size (unzip1 upd))%N ->
      nth 0 (unzip1 upd) k
      = spec_residual_mean X (nth 0 zl k) (nth 0 Wl k) (col k resp).
  move=> Hf /(traverse_nth it0 y0)[Hsz Hnth].
  split; first by rewrite size_map.
  rewrite size_map Hsz => k Hk.
  rewrite (nth_map y0) ?Hsz //.
  have [zz Hit] := nth_zip4 it0 Hk.
  have := Hnth k Hk; rewrite -/l in Hit; rewrite Hit => /Hf ->.
  exact: weighted_mean_resid.
have finish (mus : seq 'rV[F]_D) :
    (size mus = size l /\
     forall k : 'I_K, (k < size mus)%N ->
       nth 0 mus k
       = spec_residual_mean X (nth 0 zl k) (nth 0 Wl k) (col k resp)) ->
    [/\ Some mus = Some mus,
        size mus = minn K (minn (size Wl) (minn (size zl) (size zzl)))
      & forall k : 'I_K, (k < size mus)%N ->
          let r := col k resp in
          let z := nth 0 zl k in
          let W := nth 0 Wl k in
          nth 0 mus k = spec_residual_mean X z W r /\
          nth 0 mus k = spec_mean X r - spec_mean (z *m W^T) r].
  move=> [Hsz Hmu]; split=> //; first by rewrite Hsz.
  by move=> k Hk /=; rewrite -spec_residual_mean_split; split; exact: Hmu.
case; rewrite /MPPCA_m_step /MFA_m_step /= HW /=.
- case Hupd: (traverse _ _) => [upd|e] //= [<-] /=.
  exists (unzip1 upd); apply: finish.
  apply: body (0, (0, 0)) _ _ _ Hupd => r W z zz y.
  case: (np_linalg_inv _) => [W2|e] //=.
  by case: (getattr _ _) => [d|e] //= [<-].
- case Hupd: (traverse _ _) => [upd|e] //= [<-] /=.
  exists (unzip1 upd); apply: finish.
  apply: body (0, (0, 0)) _ _ _ Hupd => r W z zz y.
  by case: (np_linalg_inv _) => [W2|e] //= [<-].
Qed.

End LowRankMean.

(** C7 on the small instance: the M-step of an [MFA] with one component
    returns one mean, the weighted average of the residuals. *)
Lemma low_rank_m_step_mean_witness :
  let self : model rat 1 1 1 := MFA_init (Fin 1) 10 0 true in
  exists new mus,
    [/\ MFA_m_step self Example.X Example.low_rank_ss
          (Some Example.low_rank) = Ok new,
        mu_list new = Some mus, size mus = 1%N
      & nth 0 mus 0
        = spec_residual_mean Example.X (const_mx 1 : 'M_(1, 1))
            (const_mx 1 : 'M_(1, 1)) (col ord0 (const_mx 1 : 'M_(1, 1)))].
Proof.
move=> self.
pose zz : 'I_1 -> 'M[rat]_1 := fun=> 1%:M.
have Hinv (r : 'cV[rat]_1) :
    r ord0 ord0 = 1 ->
    np_linalg_inv (weighted_sum_zz zz r) = Ok (invmx 1%:M).
  move=> Hr; have -> : weighted_sum_zz zz r = 1%:M.
    rewrite /weighted_sum_zz big_ord1.
    by apply/matrixP=> a b; rewrite !mxE Hr mulr1.
  by rewrite /np_linalg_inv unitmx1.
have [new Hnew] : exists new,
    MFA_m_step self Example.X Example.low_rank_ss (Some Example.low_rank)
    = Ok new.
  rewrite /MFA_m_step /= /columns enum_ordSl enum_ord0 /= -/zz.
  by rewrite Hinv ?mxE //=; eexists.
have [mus [Hmus Hsz Hmean]] :=
  @low_rank_m_step_mean rat 1 1 1 1 Example.X self
    (const_mx 1) [:: const_mx 1] [:: fun=> 1%:M] Example.low_rank
    [:: const_mx 1] new erefl (or_intror Hnew).
exists new, mus; split=> //.
by have [] := Hmean ord0; rewrite ?Hsz.
Defined.

Section Weights.
Context {F : realFieldType} {K D L : nat} {E : Externals F D L}.
Variables (N : nat) (X : 'M[F]_(N, D)).
Implicit Types (self : model F K D L) (params : option (params_dict F K D L)).


(** What every E-step computes: the densities of the components, from
    the evaluator of the class, weighted and normalised. *)
Lemma e_step_structure self params ss sample_ll :
  _e_step self X params = Ok (ss, sample_ll) ->
  exists p mus c Sigmas dens,
    [/\ params = Some p,
        mu_list p = Some mus /\ components p = Some c,
        _params_to_Sigma self params = Ok Sigmas,
        densities (@pdf_of _ _ _ E (class_of self)) X mus Sigmas = Ok dens
      & responsibilities ss = Some (normalise (weighted dens c))
        /\ sample_ll = log_rows (np_sum_axis1 (weighted dens c))].
Proof.
rewrite /_e_step /GMM_e_step /MPPCA_e_step /MFA_e_step.
case: params => [p|] /=; last by case: (class_of self).
case Hmu: (mu_list p) => [mus|] /=; last by case: (class_of self).
case Hc: (components p) => [c|] /=; last by case: (class_of self).
case Hcls: (class_of self).
- case HS: (_params_to_Sigma _ _) => [Sigmas|e] //=.
  case Hd: (densities _ _ _ _) => [dens|e] //= [<- <-].
  by exists p, mus, c, Sigmas, dens.
- case HS: (_params_to_Sigma _ _) => [Sigmas|e] //=.
  case Hd: (densities _ _ _ _) => [dens|e] //= [<- <-].
  by exists p, mus, c, Sigmas, dens.
- case HS: (_params_to_Sigma _ _) => [Sigmas|e] //=.
  case Hd: (densities _ _ _ _) => [dens|e] //= [<- <-].
  by exists p, mus, c, Sigmas, dens.
- case: (getitem _ (W_list p)) => [Wl|e] //=.
  case: (getitem _ (sigma_sq_list p)) => [sl|e] //=.
  case HS: (_params_to_Sigma _ _) => [Sigmas|e] //=.
  case Hd: (densities _ _ _ _) => [dens|e] //=.
  case: (traverse _ _) => [stats|e] //= [<- <-].
  by exists p, mus, c, Sigmas, dens.
- case: (getitem _ (W_list p)) => [Wl|e] //=.
  case: (getitem _ (Psi_list p)) => [Pl|e] //=.
  case HS: (_params_to_Sigma _ _) => [Sigmas|e] //=.
  case Hd: (densities _ _ _ _) => [dens|e] //=.
  case: (traverse _ _) => [stats|e] //= [<- <-].
  by exists p, mus, c, Sigmas, dens.
Qed.


(** Rows divided by their sum add up to [1]. *)
Lemma normalise_row_sum (r : 'M[F]_(N, K)) (n : 'I_N) :
  \sum_k r n k != 0 -> \sum_k normalise r n k = 1.
Proof.
move=> Hn; rewrite /normalise /div_newaxis /np_sum_axis1.
under eq_bigr do rewrite !mxE.
by rewrite -mulr_suml divff.
Qed.



End Weights.



Section Score.
Context {F : realFieldType} {K D L : nat} {E : Externals F D L}.
Variables (N : nat) (X : 'M[F]_(N, D)).

(** C8: on a fitted instance [score(X)] is the arithmetic mean
    [sum / size] of the array that [score_samples(X)] returns, computed
    in the same state; when [score_samples] raises, [score] raises the
    same exception. *)
Theorem score_is_mean_of_score_samples (w : @world F K D L E) :
  isFitted (self_of w) = true ->
  (exists sample_ll,
     [/\ score_samples X w = (Ok (Some sample_ll), w),
         score X w = (Ok (Some (np_mean1 sample_ll)), w)
       & np_mean1 sample_ll
         = fdiv (np_sum1 sample_ll) (Fin (size sample_ll)%:R)])
  \/ (exists e, score_samples X w = (Raise e, w)
                /\ score X w = (Raise e, w)).
Proof.
move=> Hfit.
have Hss :
    score_samples X w
    = (rbind (getattr "params" (params (self_of w))) (fun ps =>
         rbind (_e_step (self_of w) X ps) (fun r => Ok (Some r.2))), w).
  rewrite /score_samples /mbind /get_self /= Hfit /= /lift.
  case: (getattr _ _) => [ps|e] //=.
  by case: (_e_step _ _ _) => [[ss sll]|e].
rewrite /score /mbind /get_self /= Hfit /= Hss.
case: (getattr _ _) => [ps|e] /=; last by right; exists e.
case: (_e_step _ _ _) => [[ss sll]|e] /=; last by right; exists e.
by left; exists sll.
Qed.

End Score.

(** C8 on the small instance: a fitted [GMM] scores the one example
    [0]. *)
Lemma score_is_mean_of_score_samples_witness :
  let w := Example.start Example.fitted_gmm in
  exists sample_ll,
    [/\ score_samples Example.X w = (Ok (Some sample_ll), w),
        score Example.X w = (Ok (Some (np_mean1 sample_ll)), w)
      & size sample_ll = 1%N].
Proof.
move=> w.
case: (@score_is_mean_of_score_samples rat 1 1 1 Example.ext 1 Example.X
         w erefl) => [[sll [Hss Hs _]]|[e [He _]]]; last by [].
exists sll; split=> //.
by case: Hss => <-; rewrite size_map size_enum_ord.
Defined.

(** ** Further properties of the code *)

Section FitEffects.
Context {F : realFieldType} {K D L : nat} {E : Externals F D L}.
Variables (N : nat) (X : 'M[F]_(N, D)).
Implicit Types (w : @world F K D L E) (p : option (params_dict F K D L)).
Implicit Types (o : pyfloat F) (ll : option (pyfloat F)).

(** [_init_params] seeds Python's generator with [random_state] and
    changes nothing else, whether it returns or raises. *)
Lemma init_params_effect init_method w r w' :
  _init_params init_method X w = (r, w') ->
  w' = World (self_of w) (stdout w) (np_random w)
         (Some (random_state (self_of w))).
Proof.
rewrite /_init_params /mbind /=.
case: (class_of (self_of w));
  rewrite /GMM_init_params /SphericalGMM_init_params
    /DiagonalGMM_init_params /MPPCA_init_params /MFA_init_params /mbind /=;
  case: (String.eqb _ _) => /=; try by case.
- by rewrite /lift; case: (KMeans_fit _ _) => [km|e] /=; case.
- rewrite /lift; case: (KMeans_fit _ _) => [km|e] /=; last by case.
  by case: (traverse _ _) => [sigs|e] /=; case.
- rewrite /lift; case: (KMeans_fit _ _) => [km|e] /=; last by case.
  by case: (traverse _ _) => [Psis|e] /=; case.
- rewrite /lift; case: (KMeans_fit _ _) => [km|e] /=; last by case.
  by case: (traverse _ _) => [fits|e] /=; case.
- rewrite /lift; case: (KMeans_fit _ _) => [km|e] /=; last by case.
  by case: (traverse _ _) => [fits|e] /=; case.
Qed.

Lemma initial_params_effect params_init init_method w r w' :
  initial_params X params_init init_method w = (r, w') ->
  w' = World (self_of w) (stdout w) (np_random w)
         (if params_init is Some _ then py_random w
          else Some (random_state (self_of w))).
Proof.
case: params_init => [p0|] /=; last exact: init_params_effect.
by case=> _ <-; case: w.
Qed.

(** The loop only prints: one diagnostic line per iteration when
    [verbose] is set. *)
Lemma fit_loop_effect todo i p o ll w r w' :
  fit_loop X todo i p o ll w = (r, w') ->
  exists ls,
    [/\ w' = printed ls w, all is_iter_line ls
      & verbose (self_of w) = false -> ls = [::]].
Proof.
elim: todo i p o ll w => [|todo IH] i p o ll w /=.
  by case=> _ <-; exists [::]; rewrite printed_nil.
rewrite /mbind /= /lift.
case: (_e_step _ _ _) => [[ss sll]|e] /=; last first.
  by case=> _ <-; exists [::]; rewrite printed_nil.
set l := IterLine _ _ _.
have Hw : (when (verbose (self_of w)) (print l)) w
          = (Ok tt, printed (if verbose (self_of w) then [:: l] else [::]) w).
  by case: (verbose _); rewrite //= printed_nil.
rewrite Hw /=; set ls0 := (if verbose (self_of w) then [:: l] else [::]).
have Hls0 : all is_iter_line ls0 /\ (verbose (self_of w) = false -> ls0 = [::]).
  by rewrite /ls0; case: (verbose _).
case: (small_change _ _ _).
  by case=> _ <-; exists ls0; case: Hls0.
rewrite /=; case: (_m_step _ _ _ _) => [new|e] /=; last first.
  by case=> _ <-; exists ls0; case: Hls0.
move=> /IH[ls [-> Hall Hq]]; exists (ls0 ++ ls).
rewrite printed_cat all_cat Hall; case: Hls0 => -> Hq0; split=> //.
by move=> Hv; rewrite Hq0 ?Hq.
Qed.

End FitEffects.

Section FitOutcome.
Context {F : realFieldType} {K D L : nat} {E : Externals F D L}.
Variables (N : nat) (X : 'M[F]_(N, D)).
Implicit Types (w : @world F K D L E) (p : option (params_dict F K D L)).
Implicit Types (o : pyfloat F) (ll : option (pyfloat F)).

(** Once [ll] is bound, [params] is the output of an M-step: the first
    iteration cannot leave the loop, because [oldL] is [-inf] there. *)
Lemma fit_loop_exit todo i p o ll w ex w' :
  (ll = None /\ o = NInf) \/ (ll <> None /\ m_step_output (self_of w) X p) ->
  fit_loop X todo i p o ll w = (Ok ex, w') ->
  if exit_ll ex is Some _ then m_step_output (self_of w) X (exit_params ex)
  else [/\ todo = 0%N, ll = None & exit_params ex = p].
Proof.
elim: todo i p o ll w => [|todo IH] i p o ll w Hinv /=.
  case=> <- _ /=; case: ll Hinv => [v|] //.
  by case=> [[]|[]].
rewrite /mbind /= /lift.
case He: (_e_step _ _ _) => [[ss sll]|e] //=.
set l := IterLine _ _ _.
have -> : (when (verbose (self_of w)) (print l)) w
          = (Ok tt, printed (if verbose (self_of w) then [:: l] else [::]) w).
  by case: (verbose _); rewrite //= printed_nil.
rewrite /=; case Hs: (small_change _ _ _).
  case=> <- _ /=; case: Hinv => [[_ Ho]|[] //].
  by rewrite Ho small_change_NInf in Hs.
rewrite /=; case Hm: (_m_step _ _ _ _) => [new|e] //=.
move=> Hrun.
have /= := IH _ _ _ _ _ (or_intror (conj _ _)) Hrun.
have Hout : m_step_output (self_of w) X (Some new) by exists ss, p, new.
case: (exit_ll ex) => [v|]; first exact.
by move=> H; case: (H _ Hout).
Qed.

(** What a call of [fit] does to the interpreter state, by outcome. *)
Lemma fit_outcome w params_init init_method r w' :
  fit X params_init init_method w = (r, w') ->
  let self1 := set_data_dim D (self_of w) in
  exists out self',
    [/\ w' = World self' (stdout w ++ out) (np_random w)
               (if params_init is Some _ then py_random w
                else Some (random_state (self_of w))),
        verbose (self_of w) = false -> out = [::]
      & match r with
        | Ok _ =>
            exists new nll,
              self' = fitted_with (Some new) nll self1
              /\ m_step_output self1 X (Some new)
        | Raise e =>
            self' = self1
            \/ exists p0,
                 [/\ self' = set_params p0 self1,
                     e = UnboundLocalError "ll"
                   & range_len (max_iter (self_of w)) = 0%N]
        end].
Proof.
rewrite /fit /mbind /=.
case Hinit: (initial_params _ _ _ _) => [[p0|e] w2];
  have /= Hw2 := initial_params_effect Hinit; last first.
  by case=> <- <-; exists [::], (set_data_dim D (self_of w));
     rewrite cats0 Hw2; split=> //; left.
case Hloop: (fit_loop _ _ _ _ _ _ _) => [[ex|e] w3];
  have [ls [Hw3 Hall Hq]] := fit_loop_effect Hloop; last first.
  case=> <- <-; exists ls, (set_data_dim D (self_of w)).
  by rewrite Hw3 Hw2; split=> //; [move=> Hv; apply: Hq; rewrite Hw2|left].
have := fit_loop_exit (or_introl (conj erefl erefl)) Hloop.
rewrite Hw3 /= Hw2 /=.
set dnc := when _ _.
have [ls' [Hdnc Hq']] : exists ls',
    (forall w0, self_of w0 = set_data_dim D (self_of w) ->
       dnc w0 = (Ok tt, printed ls' w0))
    /\ (verbose (self_of w) = false -> ls' = [::]).
  rewrite /dnc; case: (exit_break ex) => /=.
    by exists [::]; split=> // w0 _; rewrite printed_nil.
  case Hv: (verbose (self_of w)).
    by exists [:: DidNotConverge].
  by exists [::]; split=> // w0 _; rewrite printed_nil.
rewrite Hdnc //=.
case Hll: (exit_ll ex) => [v|] /=.
  case=> ss [prev [new [Hm Hp]]] [<- <-].
  exists (ls ++ ls'), (fitted_with (Some new) v (set_data_dim D (self_of w))).
  rewrite catA Hp; split=> //.
    by move=> Hv; rewrite Hq ?Hq' // Hw2.
  by exists new, v; split=> //; exists ss, prev, new.
case=> Hn _ Hp [<- <-].
exists (ls ++ ls'), (set_params p0 (set_data_dim D (self_of w))).
rewrite catA Hp; split=> //.
  by move=> Hv; rewrite Hq ?Hq' // Hw2.
by right; exists p0; split=> //; rewrite Hw2 in Hn.
Qed.

End FitOutcome.

(** Two runs of the small instance: one that stops at the second
    iteration, one that uses up its two iterations. *)
Lemma example_converging_run :
  exists w',
    fit Example.X (Some Example.params0) "kmeans"
      (Example.start (GMM_init GMM (Fin 1) 10 0 true)) = (Ok tt, w').
Proof.
set w := Example.start _.
have [mu [c [S Hit]]] :=
  @example_iterate (self_of (updated (set_data_dim 1) w)) (const_mx 0)
    (const_mx 1) 1%:M NInf 1 erefl.
have [||ls _ Hloop] :=
  @fit_loop_break rat 1 1 1 Example.ext 1 Example.X 1 10 0 _ _ None
    (updated (set_data_dim 1) w) _ _ _ _ isT Hit erefl.
- by rewrite !example_ll /small_change /= subrr normr0.
- by case=> // _; exact: first_iteration_not_small.
have Hinit :
    initial_params Example.X (Some Example.params0) "kmeans"
      (updated (set_data_dim 1) w)
    = (Ok (Some Example.params0), updated (set_data_dim 1) w) by [].
by rewrite (fit_after_loop Hinit Hloop) /=; eexists.
Qed.

Lemma example_exhausted_run (verbose : bool) :
  exists w',
    fit Example.X (Some Example.params0) "kmeans"
      (Example.start (GMM_init GMM (Fin 0) 2 0 verbose)) = (Ok tt, w').
Proof.
set w := Example.start _.
have [mu [c [S Hit]]] :=
  @example_iterate (self_of (updated (set_data_dim 1) w)) (const_mx 0)
    (const_mx 1) 1%:M NInf 2 erefl.
have [|ls _ Hloop] := fit_loop_exhausted 0 None Hit.
  by move=> k _; exact: never_small_tol0.
have Hinit :
    initial_params Example.X (Some Example.params0) "kmeans"
      (updated (set_data_dim 1) w)
    = (Ok (Some Example.params0), updated (set_data_dim 1) w) by [].
by rewrite (fit_after_loop Hinit Hloop) /=; eexists.
Qed.

Section FitContract.
Context {F : realFieldType} {K D L : nat} {E : Externals F D L}.
Variables (N : nat) (X : 'M[F]_(N, D)).
Implicit Types (w : @world F K D L E).

(** X1: when [fit] returns, the instance is fitted, [data_dim] is the
    number of columns of [X], [params] holds a dictionary that an M-step of
    this instance on [X] returned (at least one M-step has run; [params]
    is never [None]), [trainNll] is set, and the configuration is as
    before. *)
Theorem fit_returns_fitted w params_init init_method w' :
  fit X params_init init_method w = (Ok tt, w') ->
  [/\ isFitted (self_of w') = true,
      data_dim (self_of w') = Some D,
      exists2 new, params (self_of w') = Some (Some new)
                 & m_step_output (set_data_dim D (self_of w)) X (Some new),
      exists nll, trainNll (self_of w') = Some nll
    & config (self_of w') = config (self_of w)].
Proof.
move=> /fit_outcome[out [self' [-> _ [new [nll [-> Hnew]]]]]] /=.
by split=> //; [exists new|exists nll].
Qed.

(** X2: when [fit] raises, [isFitted], [trainNll] and the configuration
    are as before and [data_dim] has been assigned; [params] is as before
    too, unless the exception is the unbound [ll] of a run without
    iterations, which is raised after [params] has been assigned. *)
Theorem fit_raises_keeps_fitted_state w params_init init_method e w' :
  fit X params_init init_method w = (Raise e, w') ->
  [/\ isFitted (self_of w') = isFitted (self_of w),
      trainNll (self_of w') = trainNll (self_of w),
      data_dim (self_of w') = Some D,
      config (self_of w') = config (self_of w)
    & params (self_of w') = params (self_of w)
      \/ [/\ e = UnboundLocalError "ll",
             range_len (max_iter (self_of w)) = 0%N
           & exists p0, params (self_of w') = Some p0]].
Proof.
move=> /fit_outcome[out [self' [-> _ /= [->|[p0 [-> He Hn]]]]]] /=.
  by split=> //; left.
by split=> //; right; split=> //; exists p0.
Qed.

(** X3: with [verbose] unset, [fit] prints nothing, whatever its
    outcome. *)
Theorem quiet_fit_prints_nothing w params_init init_method r w' :
  verbose (self_of w) = false ->
  fit X params_init init_method w = (r, w') ->
  stdout w' = stdout w.
Proof.
by move=> Hv /fit_outcome[out [self' [-> /(_ Hv) -> _]]] /=; rewrite cats0.
Qed.

(** X4: [fit] reseeds Python's global generator with [random_state]
    exactly when it computes the initial parameters itself, whether it
    then returns or raises; given [params_init] it leaves the generator
    alone. *)
Theorem fit_seeds_python_random w (p0 : params_dict F K D L) init_method :
  py_random (fit X (Some p0) init_method w).2 = py_random w
  /\ py_random (fit X None init_method w).2
     = Some (random_state (self_of w)).
Proof.
split.
- case Hf: (fit _ _ _ _) => [r w'].
  by have [out [self' [-> _ _]]] := fit_outcome Hf.
- case Hf: (fit _ _ _ _) => [r w'].
  by have [out [self' [-> _ _]]] := fit_outcome Hf.
Qed.

End FitContract.

(** X1 on the small instance. *)
Lemma fit_returns_fitted_witness :
  exists w',
    [/\ fit Example.X (Some Example.params0) "kmeans"
          (Example.start (GMM_init GMM (Fin 1) 10 0 true)) = (Ok tt, w'),
        isFitted (self_of w') = true
      & data_dim (self_of w') = Some 1%N].
Proof.
have [w' Hfit] := example_converging_run.
by exists w'; have [] := fit_returns_fitted Hfit.
Defined.

(** X2 on the small instance: an unsupported [init_method]. *)
Lemma fit_raises_keeps_fitted_state_witness :
  exists e w',
    [/\ fit Example.X None "random"
          (Example.start (GMM_init GMM (Fin 1) 10 0 true)) = (Raise e, w'),
        isFitted (self_of w') = false
      & params (self_of w') = None].
Proof.
set run := fit _ _ _ _.
have Hfit : run = (Raise TypeError, run.2) by [].
exists TypeError, run.2; have [Hf _ _ _ Hp] := fit_raises_keeps_fitted_state Hfit.
by split=> //; case: Hp => [|[]].
Defined.

(** X3 on the small instance: a quiet run that uses up its iterations. *)
Lemma quiet_fit_prints_nothing_witness :
  exists w',
    fit Example.X (Some Example.params0) "kmeans"
      (Example.start (GMM_init GMM (Fin 0) 2 0 false)) = (Ok tt, w')
    /\ stdout w' = [::].
Proof.
have [w' Hfit] := example_exhausted_run false.
by exists w'; split=> //; rewrite (quiet_fit_prints_nothing _ Hfit).
Defined.

Section EStep.
Context {F : realFieldType} {K D L : nat} {E : Externals F D L}.
Variables (N : nat) (X : 'M[F]_(N, D)).
Implicit Types (self : model F K D L) (p : params_dict F K D L).

(** X5: the E-step of a class returns only when [params] is a dictionary
    holding ['mu_list'], ['components'] and the covariance keys of the
    class; when one of them is missing it raises [KeyError], and on [None]
    it raises [TypeError]. *)
Theorem e_step_needs_keys self p :
  ~~ required_keys (class_of self) p ->
  [/\ exists key, _e_step self X (Some p) = Raise (KeyError key),
      _e_step self X None = Raise TypeError
    & forall q res, _e_step self X (Some q) = Ok res ->
        required_keys (class_of self) q].
Proof.
move=> Hp; split.
- move: Hp; rewrite /_e_step /required_keys.
  rewrite /GMM_e_step /MPPCA_e_step /MFA_e_step /_params_to_Sigma
    /GMM_params_to_Sigma /SphericalGMM_params_to_Sigma /DiagonalGMM_params_to_Sigma
    /MPPCA_params_to_Sigma /MFA_params_to_Sigma.
  by case: p => [[?|] [?|] [?|] [?|] [?|] [?|]];
     case: (class_of self) => //= _; eexists.
- by rewrite /_e_step /GMM_e_step /MPPCA_e_step /MFA_e_step /=;
     case: (class_of self).
- move=> q res; rewrite /_e_step /required_keys.
  rewrite /GMM_e_step /MPPCA_e_step /MFA_e_step /_params_to_Sigma
    /GMM_params_to_Sigma /SphericalGMM_params_to_Sigma /DiagonalGMM_params_to_Sigma
    /MPPCA_params_to_Sigma /MFA_params_to_Sigma.
  by case: q => [[?|] [?|] [?|] [?|] [?|] [?|]]; case: (class_of self).
Qed.

End EStep.

(** X5 on the small instance: the dictionary [{}]. *)
Lemma e_step_needs_keys_witness :
  exists key,
    _e_step (GMM_init GMM (Fin 1) 10 0 true) Example.X
      (Some (@no_keys rat 1 1 1)) = Raise (KeyError key).
Proof.
by have [] := @e_step_needs_keys rat 1 1 1 Example.ext 1 Example.X
                (GMM_init GMM (Fin 1) 10 0 true) no_keys isT.
Defined.

Section Densities.
Context {F : realFieldType} {K D L : nat} {E : Externals F D L}.
Variables (N : nat) (X : 'M[F]_(N, D)).
Implicit Types (self : model F K D L) (p : params_dict F K D L).

Lemma col_set_col (r : 'M[F]_(N, K)) (a : nat) (v : 'cV[F]_N) (k : 'I_K) :
  col k (set_col r a v) = if (k : nat) == a then v else col k r.
Proof.
apply/colP=> n; rewrite !mxE.
by case: ((k : nat) == a); rewrite ?mxE // (ord1 ord0).
Qed.

(** The column loop, started at column [a] for [m] columns. *)
Lemma fill_columns_spec
    (pdf : forall N, 'M[F]_(N, D) -> 'rV[F]_D -> 'M[F]_D -> result 'cV[F]_N)
    (l : seq ('rV[F]_D * 'M[F]_D)) (a m : nat) (r0 r : 'M[F]_(N, K)) :
  for_each (fun (r : 'M[F]_(N, K)) (kms : nat * ('rV[F]_D * 'M[F]_D)) =>
              rbind (pdf N X kms.2.1 kms.2.2) (fun v =>
                Ok (set_col r kms.1 v)))
           (zip (iota a m) l) r0 = Ok r ->
  forall k : 'I_K,
    if (a <= k < a + minn m (size l))%N then
      pdf N X (nth (0, 0) l (k - a)).1 (nth (0, 0) l (k - a)).2
      = Ok (col k r)
    else col k r = col k r0.
Proof.
elim: l a m r0 => [|x l IH] a m r0 /=.
  by case: m => [|m] /= [<-] k; rewrite ?minn0 ?min0n addn0;
     case: ltngtP.
case: m => [|m] /=.
  by case=> <- k; rewrite min0n addn0; case: ltngtP.
case Hv: (pdf N X x.1 x.2) => [v|e] //= /IH Hr k.
have := Hr k; rewrite minnSS addnS -addSn col_set_col.
case: (ltngtP a k) => [Hak|Hka|Hak] /=.
- by rewrite -[(k - a)%N]prednK ?subn_gt0 // -subnS.
- by [].
- by rewrite -Hak subnn addSn ltnS leq_addr /= Hv => ->.
Qed.

Lemma densities_spec
    (pdf : forall N, 'M[F]_(N, D) -> 'rV[F]_D -> 'M[F]_D -> result 'cV[F]_N)
    (mus : seq 'rV[F]_D) (Sigmas : seq 'M[F]_D) (r : 'M[F]_(N, K)) :
  densities pdf X mus Sigmas = Ok r ->
  forall k : 'I_K,
    if (k < minn (size mus) (size Sigmas))%N then
      pdf N X (nth 0 mus k) (nth 0 Sigmas k) = Ok (col k r)
    else col k r = 0.
Proof.
move=> /fill_columns_spec Hr k; have := Hr k.
rewrite add0n subn0 size_zip /= leq_min ltn_ord /= nth_zip_cond size_zip.
case: ifP => Hk; last by move=> ->; apply/colP=> n; rewrite !mxE.
by rewrite Hk.
Qed.


(** X6: the E-step does not fail when ['mu_list'] has fewer than [K]
    entries: column [k] of the densities is written only for [k] below the
    lengths of the two zipped lists, so a component without a mean keeps
    density zero and gets responsibility [0] in every row that is
    normalised. *)
Theorem component_without_mean_gets_no_responsibility self p mus ss
    sample_ll resp (k : 'I_K) :
  _e_step self X (Some p) = Ok (ss, sample_ll) ->
  mu_list p = Some mus ->
  (size mus <= k)%N ->
  responsibilities ss = Some resp ->
  forall n, \sum_j resp n j = 1 -> resp n k = 0.
Proof.
move=> /e_step_structure[q [mus' [c [Sigmas [dens]]]]].
move=> [[<-] [Hmu Hc] HS /densities_spec/(_ k) Hd [Hresp _]].
rewrite Hmu => -[<-] Hk; rewrite Hresp => -[<-] n _.
move: Hd; rewrite leq_min ltnNge Hk /= => /colP/(_ n).
by rewrite !mxE => ->; rewrite mul0r mul0r.
Qed.

(** X7: when the density evaluator returns non-negative values and the
    weights in [params] are non-negative, the responsibilities of every
    normalised row lie between [0] and [1]. *)
Theorem responsibilities_are_probabilities self p c ss sample_ll resp :
  (forall mu Sigma v,
     pdf_of (class_of self) X mu Sigma = Ok v -> forall n, 0 <= v n 0) ->
  _e_step self X (Some p) = Ok (ss, sample_ll) ->
  components p = Some c ->
  (forall k, 0 <= c 0 k) ->
  responsibilities ss = Some resp ->
  forall n, \sum_j resp n j = 1 -> forall k, 0 <= resp n k <= 1.
Proof.
move=> Hpdf /e_step_structure[q [mus [c' [Sigmas [dens]]]]].
move=> [[<-] [Hmu Hc'] HS /densities_spec Hd [Hresp _]].
rewrite Hc' => -[<-] Hc; rewrite Hresp => -[<-] n Hsum k.
have Hdens j : 0 <= dens n j.
  have := Hd j; case: ifP => _.
    by move=> /Hpdf/(_ n); rewrite mxE.
  by move=> /colP/(_ n); rewrite !mxE => ->.
have Hw j : 0 <= weighted dens c' n j by rewrite mxE mulr_ge0.
have Hr j : 0 <= normalise (weighted dens c') n j.
  by rewrite mxE divr_ge0 // mxE sumr_ge0.
by rewrite Hr /= -Hsum (bigD1 k) //= lerDl sumr_ge0.
Qed.

End Densities.

(** X6 on the small instance, with two components and one mean: the
    second component gets responsibility [0]. *)
Lemma component_without_mean_gets_no_responsibility_witness :
  let self : model rat 2 1 1 := GMM_init GMM (Fin 1) 10 0 true in
  exists ss sample_ll resp,
    [/\ _e_step self Example.X (Some one_of_two) = Ok (ss, sample_ll),
        responsibilities ss = Some resp
      & forall n, resp n ord_max = 0].
Proof.
move=> self.
have H := @component_without_mean_gets_no_responsibility rat 2 1 1
  Example.ext 1 Example.X self one_of_two _ _ _ _ ord_max
  erefl erefl isT erefl.
do 3!eexists; split=> // n; apply: H.
rewrite !big_ord_recl big_ord0 !mxE !big_ord_recl big_ord0 !mxE /=.
by [].
Defined.

(** X7 on the small instance. *)
Lemma responsibilities_are_probabilities_witness :
  let self : model rat 1 1 1 := GMM_init GMM (Fin 1) 10 0 true in
  exists ss sample_ll resp,
    [/\ _e_step self Example.X (Some Example.params0) = Ok (ss, sample_ll),
        responsibilities ss = Some resp
      & forall n k, 0 <= resp n k <= 1].
Proof.
move=> self.
have H := @responsibilities_are_probabilities rat 1 1 1 Example.ext 1
  Example.X self Example.params0 _ _ _ _ _ erefl erefl _ erefl.
do 3!eexists; split=> // n k; apply: H.
- by move=> mu Sigma v [<-] m; rewrite mxE.
- by move=> j; rewrite mxE.
- apply: normalise_row_sum.
  by rewrite big_ord1 !mxE.
Defined.

Section MStepVariants.
Context {F : realFieldType} {K D L : nat} {E : Externals F D L}.
Variables (N : nat) (X : 'M[F]_(N, D)).
Implicit Types (self : model F K D L) (r : 'cV[F]_N).
Implicit Types (resp : 'M[F]_(N, K)).

(** X10: the M-step of [DiagonalGMM] always returns [K] means and [K]
    matrices; the means are those of the full-covariance class, and each
    matrix carries the diagonal of the full covariance of the
    specification and zeros elsewhere. *)
Theorem diagonal_m_step_is_diagonal_of_full self resp zl zzl params :
  exists mus Psis,
    [/\ DiagonalGMM_m_step self X (Stats (Some resp) zl zzl) params
        = Ok {| Psi_list := Some Psis; mu_list := Some mus;
                components := Some (np_mean_axis0 resp);
                Sigma_list := None; sigma_sq_list := None;
                W_list := None |},
        size mus = K /\ size Psis = K
      & forall k : 'I_K,
          nth 0 mus k = spec_mean X (col k resp)
          /\ forall i j,
               nth 0 Psis k i j
               = if i == j then spec_cov X (col k resp) i i else 0].
Proof.
exists [seq weighted_mean X r | r <- columns resp],
  [seq np_diag_diag (weighted_cov X r (weighted_mean X r))
  | r <- columns resp].
split.
- by rewrite /DiagonalGMM_m_step /= /unzip1 /unzip2 -!map_comp.
- by split; rewrite size_map size_columns.
- move=> k; rewrite !(nth_map 0) ?size_columns // nth_columns.
  rewrite weighted_cov_spec weighted_mean_spec; split=> // i j.
  by rewrite !mxE; case: (i == j).
Qed.

(** The weighted sum of squared deviations from the mean is [R] times
    the trace of the full covariance. *)
Lemma weighted_deviation_trace r :
  \sum_n r n 0 != 0 ->
  (\sum_n r n 0 * \sum_i (X n i - spec_mean X r 0 i) ^+ 2) / (\sum_n r n 0)
  = \tr (spec_cov X r).
Proof.
move=> HR; set R := \sum_n r n 0; set m := spec_mean X r.
have Hm i : \sum_n r n 0 * X n i = R * m 0 i.
  rewrite /m /spec_mean !mxE summxE mulrA divff // mul1r.
  by apply: eq_bigr => n _; rewrite !mxE.
have -> : \sum_n r n 0 * \sum_i (X n i - m 0 i) ^+ 2
          = \sum_i (\sum_n r n 0 * X n i ^+ 2 - m 0 i ^+ 2 * R).
  under eq_bigr => n _ do rewrite mulr_sumr.
  rewrite exchange_big /=; apply: eq_bigr => i _.
  have -> : \sum_n r n 0 * (X n i - m 0 i) ^+ 2
            = \sum_n (r n 0 * X n i ^+ 2
                      - 2%:R * m 0 i * (r n 0 * X n i)
                      + m 0 i ^+ 2 * r n 0).
    by apply: eq_bigr => n _; ring.
  rewrite big_split /= sumrB -!mulr_sumr Hm -/R.
  by ring.
rewrite /mxtrace mulr_suml; apply: eq_bigr => i _.
rewrite !mxE summxE big_ord1 !mxE mulrBl -mulrA divff // mulr1.
rewrite -/m -expr2 mulrC; congr (_ * _ - _).
  by rewrite summxE; apply: eq_bigr => n _; rewrite !mxE big_ord1 !mxE expr2.
by rewrite summxE.
Qed.

(** X11: when the M-step of [SphericalGMM] returns, it returns [K] means
    (those of the full-covariance class) and [K] variances; each variance
    is the weighted sum of the squared distances to the mean divided by
    [D * R].  For a component whose total responsibility [R] is not [0],
    it is the mean of the diagonal of the full covariance, and, with at
    least one feature and responsibilities that are not negative, it is
    not negative.  (For [R = 0] the quotient is [0/0].) *)
Theorem spherical_m_step_variance self resp zl zzl old new :
  SphericalGMM_m_step self X (Stats (Some resp) zl zzl) old = Ok new ->
  exists mus sigs,
    [/\ mu_list new = Some mus, sigma_sq_list new = Some sigs,
        size mus = K /\ size sigs = K
      & forall k : 'I_K,
          let r := col k resp in
          let mu := spec_mean X r in
          let R := \sum_n r n 0 in
          [/\ nth 0 mus k = mu,
              nth 0 sigs k
              = (\sum_n r n 0 * \sum_i (X n i - mu 0 i) ^+ 2) / (D%:R * R),
              R != 0 -> nth 0 sigs k = \tr (spec_cov X r) / D%:R
            & (0 < D)%N -> R != 0 -> (forall n, 0 <= r n 0) ->
              0 <= nth 0 sigs k]].
Proof.
rewrite /SphericalGMM_m_step /=.
case: (subscript old) => [p|e] //=.
case: (getitem _ _) => [ml|e] //=.
case: (list_getitem _ _) => [mu0|e] //= [<-] /=.
pose f r := weighted_mean X r.
pose g r := \tr (newaxis_mul r (sub_bcast X (f r) *m (sub_bcast X (f r))^T))
            / (D%:R * np_sum r).
exists [seq f r | r <- columns resp], [seq g r | r <- columns resp].
split; first 1 [by rewrite /unzip1 -map_comp] || idtac.
- by rewrite /unzip2 -map_comp.
- by split; rewrite size_map size_columns.
move=> k /=; rewrite !(nth_map 0) ?size_columns // nth_columns.
set r := col k resp; rewrite /g /f weighted_mean_spec.
have Hs : \tr (newaxis_mul r (sub_bcast X (spec_mean X r)
                               *m (sub_bcast X (spec_mean X r))^T))
          = \sum_n r n 0 * \sum_i (X n i - spec_mean X r 0 i) ^+ 2.
  rewrite /mxtrace; apply: eq_bigr => n _; rewrite !mxE; congr (_ * _).
  by apply: eq_bigr => i _; rewrite !mxE expr2.
rewrite Hs /np_sum; split=> //.
- move=> HR; rewrite -weighted_deviation_trace // invfM.
  by rewrite [D%:R^-1 * _]mulrC mulrA.
- move=> _ _ Hr; apply: divr_ge0.
    apply: sumr_ge0 => n _; apply: mulr_ge0 => //.
    by apply: sumr_ge0 => i _; rewrite sqr_ge0.
  by apply: mulr_ge0; rewrite ?ler0n // sumr_ge0.
Qed.

End MStepVariants.

(** X11 on the small instance: the single variance is not negative. *)
Lemma spherical_m_step_variance_witness :
  let self : model rat 1 1 1 := GMM_init SphericalGMM (Fin 1) 10 0 true in
  exists new sigs,
    [/\ SphericalGMM_m_step self Example.X
          (Stats (Some (const_mx 1)) None None) (Some Example.params0)
        = Ok new,
        sigma_sq_list new = Some sigs
      & 0 <= nth 0 sigs 0].
Proof.
move=> self.
have [mus [sigs [_ Hsig _ Hk]]] :=
  @spherical_m_step_variance rat 1 1 1 1 Example.X self (const_mx 1) None
    None (Some Example.params0) _ erefl.
eexists; exists sigs; split=> //.
have [_ _ _] := Hk ord0; apply=> // [|n]; last by rewrite !mxE.
by rewrite big_ord1 !mxE.
Defined.

Lemma traverse_map (A B : Type) (f : A -> result B) (g : A -> B)
    (l : seq A) :
  (forall x, f x = Ok (g x)) -> traverse f l = Ok (map g l).
Proof. by move=> Hf; elim: l => [|x l IH] //=; rewrite Hf /= IH. Qed.

Section Symmetry.
Variables (F : realFieldType) (N D L : nat).

Lemma sym_weighted_cov (X : 'M[F]_(N, D)) (r : 'cV[F]_N) (mu : 'rV[F]_D) :
  (weighted_cov X r mu)^T = weighted_cov X r mu.
Proof.
rewrite /weighted_cov /np_outer linearB /= trmx_mul trmxK; congr (_ - _).
apply/matrixP=> i j; rewrite !mxE; congr (_ / _).
by apply: eq_bigr => n _; rewrite !mxE; ring.
Qed.

Lemma sym_div_scalar (A : 'M[F]_D) (s : F) :
  A^T = A -> (div_scalar A s)^T = div_scalar A s.
Proof.
by move=> /matrixP HA; apply/matrixP=> i j; rewrite !mxE -HA mxE.
Qed.

Lemma sym_gram_plus (W : 'M[F]_(D, L)) (P : 'M[F]_D) :
  P^T = P -> (W *m W^T + P)^T = W *m W^T + P.
Proof. by move=> HP; rewrite linearD /= trmx_mul trmxK HP. Qed.

Lemma sym_scaled_eye (s : F) : (s *: (1%:M : 'M[F]_D))^T = s *: 1%:M.
Proof. by rewrite linearZ /= trmx1. Qed.

End Symmetry.

Section MStepComposes.
Context {F : realFieldType} {K D L : nat} {E : Externals F D L}.
Variables (N : nat) (X : 'M[F]_(N, D)).
Implicit Types (self : model F K D L).

(** What every M-step returns: the keys of its class, one covariance per
    mean once materialised, each of them symmetric. *)
Lemma m_step_result_spec self (ss : ss_dict F K L N) params new :
  data_dim self = Some D ->
  _m_step self X ss params = Ok new ->
  exists mus Sigmas,
    [/\ required_keys (class_of self) new,
        mu_list new = Some mus,
        _params_to_Sigma self (Some new) = Ok Sigmas,
        [/\ size Sigmas = size mus, (size mus <= K)%N
          & ~~ low_rank_class (class_of self) -> size mus = K]
      & forall i, (i < size Sigmas)%N ->
          (nth 0 Sigmas i)^T = nth 0 Sigmas i].
Proof.
move=> Hdd; rewrite /_m_step /_params_to_Sigma.
case Hcls: (class_of self).
- rewrite /GMM_m_step; case: (getitem _ _) => [resp|e] //= [<-].
  set U := [seq _ | r <- columns resp].
  have HU : size U = K by rewrite /U size_map size_columns.
  exists (unzip1 U), (unzip2 U); split=> //.
    by split; rewrite /unzip1 /unzip2 ?(size_map _ U) ?HU.
  move=> i; rewrite /unzip2 (size_map _ U) HU => Hi.
  rewrite /U -map_comp (nth_map 0) ?size_columns //=.
  exact: sym_weighted_cov.
- rewrite /SphericalGMM_m_step; case: (getitem _ _) => [resp|e] //=.
  case: (subscript _) => [p|e] //=; case: (getitem _ _) => [ml|e] //=.
  case: (list_getitem _ _) => [mu0|e] //= [<-].
  set U := [seq _ | r <- columns resp].
  have HS : SphericalGMM_params_to_Sigma self
              (Some {| mu_list := Some (unzip1 U);
                       components := Some (np_mean_axis0 resp);
                       Sigma_list := None;
                       sigma_sq_list := Some (unzip2 U);
                       Psi_list := None; W_list := None |})
            = Ok [seq s *: 1%:M | s <- unzip2 U].
    rewrite /SphericalGMM_params_to_Sigma /=; apply: traverse_map => s.
    by rewrite Hdd /= /np_eye eqxx.
  have HU : size U = K by rewrite /U size_map size_columns.
  exists (unzip1 U), [seq s *: 1%:M | s <- unzip2 U]; split=> //.
    by split; rewrite ?(size_map _ (unzip2 U)) /unzip1 /unzip2 ?(size_map _ U) ?HU.
  move=> i Hi; rewrite (nth_map 0) ?sym_scaled_eye //.
  by move: Hi; rewrite size_map.
- rewrite /DiagonalGMM_m_step; case: (getitem _ _) => [resp|e] //= [<-].
  set U := [seq _ | r <- columns resp].
  have HU : size U = K by rewrite /U size_map size_columns.
  exists (unzip1 U), (unzip2 U); split=> //.
    by split; rewrite /unzip1 /unzip2 ?(size_map _ U) ?HU.
  move=> i; rewrite /unzip2 (size_map _ U) HU => Hi.
  rewrite /U -map_comp (nth_map 0) ?size_columns //=.
  exact: tr_diag_mx.
- rewrite /MPPCA_m_step; case: (getitem _ _) => [resp|e] //=.
  case: (getitem _ _) => [zl|e] //=; case: (getitem _ _) => [zzl|e] //=.
  case: (subscript _) => [p|e] //=; case: (getitem _ _) => [Wl|e] //=.
  case Hupd: (traverse _ _) => [upd|e] //= [<-].
  have [Hsz _] := traverse_nth (0, (0, (0, fun=> 0))) (0, (0, 0)) Hupd.
  pose h (Ws : 'M[F]_(D, L) * F) := Ws.1 *m Ws.1^T + Ws.2 *: 1%:M.
  have HS : MPPCA_params_to_Sigma self
              (Some {| mu_list := Some (unzip1 upd);
                       components := Some (np_mean_axis0 resp);
                       Sigma_list := None;
                       sigma_sq_list := Some (unzip2 (unzip2 upd));
                       Psi_list := None;
                       W_list := Some (unzip1 (unzip2 upd)) |})
            = Ok [seq h Ws | Ws <- unzip2 upd].
    rewrite /MPPCA_params_to_Sigma /= zip_unzip; apply: traverse_map => Ws.
    by rewrite Hdd /= /np_eye eqxx.
  exists (unzip1 upd), [seq h Ws | Ws <- unzip2 upd]; split=> //.
    split; rewrite ?size_map //.
    by rewrite Hsz /zip4 size_zip size_columns geq_minl.
  move=> i; rewrite (size_map h) => Hi; rewrite (nth_map (0, 0)) //.
  by rewrite /h sym_gram_plus // sym_scaled_eye.
- rewrite /MFA_m_step; case: (getitem _ _) => [resp|e] //=.
  case: (getitem _ _) => [zl|e] //=; case: (getitem _ _) => [zzl|e] //=.
  case: (subscript _) => [p|e] //=; case: (getitem _ _) => [Wl|e] //=.
  case Hupd: (traverse _ _) => [upd|e] //= [<-].
  have [Hsz Hnth] := traverse_nth (0, (0, (0, fun=> 0))) (0, (0, 0)) Hupd.
  pose h (WP : 'M[F]_(D, L) * 'M[F]_D) := WP.1 *m WP.1^T + WP.2.
  exists (unzip1 upd), [seq h WP | WP <- unzip2 upd]; split=> //.
  + by rewrite /MFA_params_to_Sigma /= zip_unzip.
  + split; rewrite ?size_map //.
    by rewrite Hsz /zip4 size_zip size_columns geq_minl.
  + move=> i; rewrite !size_map => Hi.
    rewrite (nth_map (0, 0)) ?size_map // (nth_map (0, (0, 0))) //.
    rewrite /h; apply: sym_gram_plus.
    have := Hnth i; rewrite -Hsz => /(_ Hi).
    case: (nth _ _ i) => r [W [z zz]].
    case: (np_linalg_inv _) => [W2|e] //= [<-] /=.
    by apply: sym_div_scalar; exact: tr_diag_mx.
Qed.

(** X8: the dictionary that an M-step returns holds the keys that the
    E-step of its class reads, and [_params_to_Sigma] turns it into one
    covariance per mean without raising; there are at most [K] means, and
    exactly [K] for the three classes without a low-rank part. *)
Theorem m_step_output_has_covariances self (ss : ss_dict F K L N) params
    new :
  data_dim self = Some D ->
  _m_step self X ss params = Ok new ->
  required_keys (class_of self) new
  /\ exists mus Sigmas,
       [/\ mu_list new = Some mus,
           _params_to_Sigma self (Some new) = Ok Sigmas,
           size Sigmas = size mus,
           (size mus <= K)%N
         & ~~ low_rank_class (class_of self) -> size mus = K].
Proof.
move=> Hdd /(m_step_result_spec Hdd)[mus [Sigmas [Hk Hmu HS [H1 H2 H3] _]]].
by split=> //; exists mus, Sigmas.
Qed.


End MStepComposes.

(** X8 on the small instance. *)
Lemma m_step_output_has_covariances_witness :
  let self : model rat 1 1 1 :=
    set_data_dim 1 (GMM_init GMM (Fin 1) 10 0 true) in
  exists new Sigmas,
    [/\ _m_step self Example.X (Stats (Some (const_mx 1)) None None) None
        = Ok new,
        _params_to_Sigma self (Some new) = Ok Sigmas
      & size Sigmas = 1%N].
Proof.
move=> self.
have [_ [mus [Sigmas [_ HS Hsz _ /(_ isT) Hk]]]] :=
  @m_step_output_has_covariances rat 1 1 1 1 Example.X self
    (Stats (Some (const_mx 1)) None None) None _ erefl erefl.
by eexists; exists Sigmas; split=> //; rewrite Hsz Hk.
Defined.


Section Queries.
Context {F : realFieldType} {K D L : nat} {E : Externals F D L}.
Implicit Types (w : @world F K D L E).

(** The loop of [sample] only advances numpy's generator. *)
Lemma sample_rows_effect n d cs mus Sigmas w r w' :
  sample_rows n d cs mus Sigmas w = (r, w') ->
  [/\ self_of w' = self_of w, stdout w' = stdout w,
      py_random w' = py_random w
    & forall rows, r = Ok rows -> size rows = n].
Proof.
elim: n w r w' => [|n IH] w r w' /=.
  by case=> <- <-; split=> // rows [<-].
rewrite /mbind /with_rng /with_rng_result /lift /=.
case: (np_random_rand _) => u g /=.
case: (np_argmin_gt _ _) => [z|e] /=; last by case=> <- <-.
case: (list_getitem mus z) => [mu|e] /=; last by case=> <- <-.
case: (list_getitem Sigmas z) => [Sigma|e] /=; last by case=> <- <-.
case: (rd_multivariate_normal _ _ _) => [[x|e] g'] /=; last by case=> <- <-.
case: (d == D) => /=; last by case=> <- <-.
case Hrest: (sample_rows _ _ _ _ _ _) => [[rest|e] w2] /=;
  have [/= H1 H2 H3 H4] := IH _ _ _ Hrest; case=> <- <-; split=> //.
by move=> rows [<-] /=; rewrite (H4 rest).
Qed.

(** X12: on a fitted instance [sample] never returns [None]; whether it
    returns or raises, it prints nothing and leaves the instance and the
    seed of Python's generator as they were (only numpy's generator
    advances); what it returns has exactly [n_samples] rows. *)
Theorem sample_draws_n_rows w n_samples r w' :
  isFitted (self_of w) = true ->
  sample n_samples w = (r, w') ->
  [/\ self_of w' = self_of w, stdout w' = stdout w,
      py_random w' = py_random w
    & forall v, r = Ok v -> exists2 rows, v = Some rows
                                        & size rows = n_samples].
Proof.
move=> Hfit; rewrite /sample /mbind /get_self /= Hfit /= /lift.
case: (getattr _ _) => [ps|e] /=; last by case=> <- <-.
case: (subscript _) => [p|e] /=; last by case=> <- <-.
case: (getitem _ (components p)) => [c|e] /=; last by case=> <- <-.
case: (getitem _ (mu_list p)) => [mus|e] /=; last by case=> <- <-.
case: (_params_to_Sigma _ _) => [Sigmas|e] /=; last by case=> <- <-.
case: (getattr _ _) => [d|e] /=; last by case=> <- <-.
case Hrows: (sample_rows _ _ _ _ _ _) => [[rows|e] w2] /=;
  have [/= H1 H2 H3 H4] := sample_rows_effect Hrows; case=> <- <-; split=> //.
by move=> v [<-]; exists rows; rewrite ?(H4 rows).
Qed.

Variables (N : nat) (X : 'M[F]_(N, D)).

Lemma score_samples_size w lls w' :
  score_samples X w = (Ok (Some lls), w') -> size lls = N.
Proof.
rewrite /score_samples /mbind /get_self /=.
case: (isFitted _) => //=; rewrite /lift.
case: (getattr _ _) => [ps|e] //=.
case He: (_e_step _ _ _) => [[ss sll]|e] //= [<- _].
have [p [mus [c [Sigmas [dens [_ _ _ _ [_ ->]]]]]]] := e_step_structure He.
by rewrite size_map size_enum_ord.
Qed.

(** X13: the array that [score_samples] returns has one entry per row
    of [X]. *)
Theorem score_samples_one_value_per_row w lls w' :
  score_samples X w = (Ok (Some lls), w') -> size lls = N.
Proof. exact: score_samples_size. Qed.

End Queries.

Section EmptyData.
Context {F : realFieldType} {K D L : nat} {E : Externals F D L}.
Implicit Types (w : @world F K D L E).

(** X14: on data without rows, the value that [score] returns is
    [nan]: the mean of an empty array. *)
Theorem score_of_no_rows_is_nan (X0 : 'M[F]_(0, D)) w v w' :
  score X0 w = (Ok (Some v), w') -> v = NaN.
Proof.
rewrite /score /mbind /get_self /=.
case: (isFitted _) => //=.
case Hss: (score_samples _ _) => [[[lls|]|e] w2] //= [<- _].
by rewrite (size0nil (score_samples_size Hss)) /np_mean1 /= eqxx.
Qed.

End EmptyData.

(** X12 on the small instance. *)
Lemma sample_draws_n_rows_witness :
  let w := Example.start Example.fitted_gmm in
  self_of (sample 2 w).2 = self_of w /\ stdout (sample 2 w).2 = [::].
Proof.
move=> w.
by have [] := @sample_draws_n_rows rat 1 1 1 Example.ext w 2 _ _ erefl
                (surjective_pairing _).
Defined.

(** X13 on the small instance. *)
Lemma score_samples_one_value_per_row_witness :
  let w := Example.start Example.fitted_gmm in
  exists lls,
    score_samples Example.X w = (Ok (Some lls), w) /\ size lls = 1%N.
Proof.
move=> w; eexists; split; first by reflexivity.
exact: (@score_samples_one_value_per_row rat 1 1 1 Example.ext 1 Example.X
          w _ w erefl).
Defined.

(** X14 on the small instance: a fitted [GMM] scores an array without
    rows. *)
Lemma score_of_no_rows_is_nan_witness :
  let w := Example.start Example.fitted_gmm in
  exists w', score (0 : 'M[rat]_(0, 1)) w = (Ok (Some NaN), w').
Proof.
move=> w; exists w.
have Hrun : exists v, score (0 : 'M[rat]_(0, 1)) w = (Ok (Some v), w).
  by eexists; reflexivity.
case: Hrun => v Hv.
by rewrite Hv (score_of_no_rows_is_nan Hv).
Defined.

Section InitParams.
Context {F : realFieldType} {K D L : nat} {E : Externals F D L}.
Variables (N : nat) (X : 'M[F]_(N, D)).
Implicit Types (w : @world F K D L E) (km : kmeans F D N).

(** The shares of the clusters add up to one when every label is one of
    the [K] clusters. *)
Lemma population_sum km :
  (0 < N)%N -> (forall n, (labels_ km n < K)%N) ->
  \sum_k (population km : 'rV[F]_K) 0 k = 1.
Proof.
move=> HN Hlab.
under eq_bigr => k _ do rewrite mxE.
rewrite -mulr_suml -natr_sum.
have -> : (\sum_(k < K) \sum_(n < N | in_cluster km k n) 1 = N)%N.
  under eq_bigr => k _ do rewrite big_mkcond /=.
  rewrite exchange_big /= -[RHS]card_ord -sum1_card.
  apply: eq_bigr => n _.
  rewrite (bigD1 (Ordinal (Hlab n))) //= /in_cluster eqxx big1 ?addn0 //.
  move=> k Hk; case: eqP => // Heq; case/eqP: Hk.
  by apply: val_inj; rewrite /= Heq.
by rewrite divff // pnatr_eq0 -lt0n.
Qed.

Lemma population_ge0 km (k : 'I_K) : 0 <= (population km : 'rV[F]_K) 0 k.
Proof. by rewrite mxE divr_ge0 // ler0n. Qed.

(** What [_init_params] returns, by class. *)
Lemma init_params_result init_method w r w' :
  _init_params init_method X w = (Ok r, w') ->
  if String.eqb init_method "kmeans" then
    exists km p,
      [/\ KMeans_fit K X = Ok km, r = Some p,
          mu_list p = Some (cluster_centers_ km)
          /\ components p = Some (population km),
          required_keys (class_of (self_of w)) p
        & data_dim (self_of w) = Some D ->
          exists2 Sigmas,
            _params_to_Sigma (self_of w) (Some p) = Ok Sigmas
            & size Sigmas = K]
  else r = None.
Proof.
rewrite /_init_params /mbind /= /_params_to_Sigma.
case: (class_of (self_of w));
  rewrite /GMM_init_params /SphericalGMM_init_params
    /DiagonalGMM_init_params /MPPCA_init_params /MFA_init_params /mbind /=;
  case: (String.eqb _ _) => /=; try by case.
- rewrite /lift; case Hkm: (KMeans_fit _ _) => [km|e] //= [<- _].
  exists km; eexists; split=> //= _.
  by eexists; first by []; rewrite size_map size_iota.
- rewrite /lift; case Hkm: (KMeans_fit _ _) => [km|e] //=.
  case Hsigs: (traverse _ _) => [sigs|e] //= [<- _].
  have [Hsz _] := traverse_nth 0%N 0 Hsigs.
  exists km; eexists; split=> //= Hdd.
  rewrite /SphericalGMM_params_to_Sigma /=.
  eexists; first by apply: traverse_map => s; rewrite Hdd /= /np_eye eqxx.
  by rewrite size_map Hsz size_iota.
- rewrite /lift; case Hkm: (KMeans_fit _ _) => [km|e] //=.
  case HPsis: (traverse _ _) => [Psis|e] //= [<- _].
  have [Hsz _] := traverse_nth 0%N 0 HPsis.
  exists km; eexists; split=> //= _.
  by eexists; first by []; rewrite Hsz size_iota.
- rewrite /lift; case Hkm: (KMeans_fit _ _) => [km|e] //=.
  case Hfits: (traverse _ _) => [fits|e] //= [<- _].
  have [Hsz _] := traverse_nth 0%N (0, 0) Hfits.
  exists km; eexists; split=> //= Hdd.
  rewrite /MPPCA_params_to_Sigma /= zip_unzip.
  eexists; first by apply: traverse_map => s; rewrite Hdd /= /np_eye eqxx.
  by rewrite size_map Hsz size_iota.
- rewrite /lift; case Hkm: (KMeans_fit _ _) => [km|e] //=.
  case Hfits: (traverse _ _) => [fits|e] //= [<- _].
  have [Hsz _] := traverse_nth 0%N (0, 0) Hfits.
  exists km; eexists; split=> //= _.
  rewrite /MFA_params_to_Sigma /= zip_unzip.
  by eexists; first by []; rewrite size_map Hsz size_iota.
Qed.

(** X15: the dictionary that [_init_params] builds from k-means can be
    handed to the first E-step: it holds the keys that the E-step of the
    class reads, the cluster centres as means, and, once [data_dim] is
    assigned, [_params_to_Sigma] turns it into [K] covariances. *)
Theorem init_params_feeds_e_step w p w' :
  data_dim (self_of w) = Some D ->
  _init_params "kmeans" X w = (Ok (Some p), w') ->
  [/\ required_keys (class_of (self_of w)) p,
      exists2 km, KMeans_fit K X = Ok km
                & mu_list p = Some (cluster_centers_ km)
    & exists2 Sigmas, _params_to_Sigma (self_of w) (Some p) = Ok Sigmas
                    & size Sigmas = K].
Proof.
move=> Hdd /init_params_result /= [km [q [Hkm [<-] [Hmu _] Hk /(_ Hdd) HS]]].
by split=> //; exists km.
Qed.

(** X16: when [X] has a row and k-means labels every row with one of
    the [K] clusters, the initial weights are non-negative and add up to
    [1]. *)
Theorem initial_weights_are_a_distribution init_method w p w' :
  (0 < N)%N ->
  (forall km, KMeans_fit K X = Ok km -> forall n, (labels_ km n < K)%N) ->
  _init_params init_method X w = (Ok (Some p), w') ->
  exists2 c, components p = Some c
           & \sum_k c 0 k = 1 /\ forall k, 0 <= c 0 k <= 1.
Proof.
move=> HN Hlab /init_params_result.
case: (String.eqb _ _) => // -[km [q [Hkm [<-] [_ Hc] _ _]]].
exists (population km) => //.
have Hsum := population_sum HN (Hlab _ Hkm).
split=> // k; rewrite population_ge0 /= -Hsum (bigD1 k) //= lerDl.
by apply: sumr_ge0 => j _; exact: population_ge0.
Qed.

End InitParams.

(** X15 on the small instance. *)
Lemma init_params_feeds_e_step_witness :
  let w := Example.start (set_data_dim 1 (GMM_init GMM (Fin 1) 10 0 true)) in
  exists p w',
    _init_params "kmeans" Example.X w = (Ok (Some p), w')
    /\ required_keys GMM p.
Proof.
move=> w; do 2!eexists; split; first by reflexivity.
by have [] := @init_params_feeds_e_step rat 1 1 1 Example.ext 1 Example.X w
                _ _ erefl erefl.
Defined.

(** X16 on the small instance. *)
Lemma initial_weights_are_a_distribution_witness :
  let w := Example.start (GMM_init GMM (Fin 1) 10 0 true) in
  exists p w' c,
    [/\ _init_params "kmeans" Example.X w = (Ok (Some p), w'),
        components p = Some c
      & \sum_k c 0 k = 1].
Proof.
move=> w.
have [||c Hc [Hs _]] :=
  @initial_weights_are_a_distribution rat 1 1 1 Example.ext 1 Example.X
    "kmeans" w _ _ _ _ erefl.
- by [].
- by move=> km [<-].
by do 2!eexists; exists c.
Defined.

Lemma zero_not_unit (R : realFieldType) (n : nat) :
  (0 < n)%N -> (0 : 'M[R]_n) \notin unitmx.
Proof. by case: n => // n _; rewrite unitmxE det0 unitr0. Qed.

(** A loop whose body raises [e] at index [i], and before that either
    returns or raises [e], raises [e]. *)
Lemma traverse_raise (A B : Type) (f : A -> result B) (l : seq A) (e : exn)
    (x0 : A) (i : nat) :
  (i < size l)%N -> f (nth x0 l i) = Raise e ->
  (forall x, f x = Raise e \/ exists y, f x = Ok y) ->
  traverse f l = Raise e.
Proof.
move=> Hi Hf Hall; elim: l i Hi Hf => [|x l IH] //= [|i] /=.
  by move=> _ ->.
rewrite ltnS => Hi Hf; case: (Hall x) => [->|[y ->]] //=.
by rewrite (IH i).
Qed.

Section EmptyComponent.
Context {F : realFieldType} {K D L : nat} {E : Externals F D L}.
Variables (N : nat) (X : 'M[F]_(N, D)).
Implicit Types (self : model F K D L) (resp : 'M[F]_(N, K)).

Lemma weighted_sum_zz_0 (zz : 'I_N -> 'M[F]_L) (r : 'cV[F]_N) :
  (forall n, r n 0 = 0) -> weighted_sum_zz zz r = 0.
Proof.
move=> Hr; rewrite /weighted_sum_zz big1 // => n _.
by apply/matrixP=> a b; rewrite !mxE Hr mulr0.
Qed.

(** X17: in the M-step of [MPPCA] and [MFA], a component that has
    responsibility [0] for every example makes the matrix to invert the
    zero matrix, and the M-step raises [LinAlgError] (with at least one
    latent dimension). *)
Theorem low_rank_m_step_empty_component self resp zl zzl p Wl (k : 'I_K) :
  low_rank_class (class_of self) -> (0 < L)%N ->
  data_dim self = Some D ->
  W_list p = Some Wl ->
  (k < size Wl)%N -> (k < size zl)%N -> (k < size zzl)%N ->
  (forall n, resp n k = 0) ->
  _m_step self X (Stats (Some resp) (Some zl) (Some zzl)) (Some p)
  = Raise LinAlgError.
Proof.
move=> Hcls HL Hdd HW HkW Hkz Hkzz Hk.
have Hsz : (k < size (zip4 (columns resp) Wl zl zzl))%N.
  by rewrite /zip4 !size_zip size_columns !leq_min ltn_ord HkW Hkz Hkzz.
have [zz Hnth] := nth_zip4 (0, (0, (0, fun=> 0))) Hsz.
have Hinv : np_linalg_inv (weighted_sum_zz zz (col k resp)) = Raise LinAlgError.
  have Hz : weighted_sum_zz zz (col k resp) = 0.
    by apply: weighted_sum_zz_0 => n; rewrite mxE.
  by rewrite /np_linalg_inv Hz (negbTE (zero_not_unit _ HL)).
rewrite /_m_step; case: (class_of self) Hcls => //= _.
- rewrite /MPPCA_m_step /= HW /=.
  rewrite (@traverse_raise _ _ _ _ LinAlgError (0, (0, (0, fun=> 0))) k) //.
    by rewrite Hnth Hinv.
  move=> [r [W [z zz']]]; rewrite Hdd /=.
  by rewrite /np_linalg_inv; case: (_ \in unitmx) => /=; [right; eexists|left].
- rewrite /MFA_m_step /= HW /=.
  rewrite (@traverse_raise _ _ _ _ LinAlgError (0, (0, (0, fun=> 0))) k) //.
    by rewrite Hnth Hinv.
  move=> [r [W [z zz']]].
  by rewrite /np_linalg_inv; case: (_ \in unitmx) => /=; [right; eexists|left].
Qed.

End EmptyComponent.

(** X17 on the small instance: the single component of an [MFA] has
    responsibility [0] for the single example. *)
Lemma low_rank_m_step_empty_component_witness :
  let self : model rat 1 1 1 :=
    set_data_dim 1 (MFA_init (Fin 1) 10 0 true) in
  _m_step self Example.X
    (Stats (Some 0) (Some [:: const_mx 1]) (Some [:: fun=> 1%:M]))
    (Some Example.low_rank)
  = Raise LinAlgError.
Proof.
move=> self.
apply: (@low_rank_m_step_empty_component rat 1 1 1 1 Example.X self 0
          [:: const_mx 1] [:: fun=> 1%:M] Example.low_rank [:: const_mx 1]
          ord0) => //.
by move=> n; rewrite mxE.
Defined.

Section UnreachableTolerance.
Context {F : realFieldType} {K D L : nat} {E : Externals F D L}.
Variables (N : nat) (X : 'M[F]_(N, D)).
Implicit Types (w : @world F K D L E) (p : option (params_dict F K D L)).
Implicit Types (o : pyfloat F) (ll : option (pyfloat F)).

(** No change is smaller than a tolerance that is [nan], [-inf] or not
    positive. *)
Lemma small_change_unreachable (a b t : pyfloat F) :
  unreachable_tol t -> small_change a b t = false.
Proof.
rewrite /small_change; case: t => [t|||] //=; last 2 first.
- by case: (fabs _).
- by case: (fabs _).
move=> Ht; case: (fsub a b) => [c|||] //=.
by apply/negbTE; rewrite -leNgt (le_trans Ht).
Qed.

Lemma fit_loop_unreachable todo i p o ll w ex w' :
  unreachable_tol (tol (self_of w)) ->
  fit_loop X todo i p o ll w = (Ok ex, w') ->
  exit_break ex = false
  /\ exists2 ls, iter_output (verbose (self_of w)) todo ls
               & w' = printed ls w.
Proof.
move=> Ht; elim: todo i p o ll w Ht => [|todo IH] i p o ll w Ht /=.
  case=> <- <-; split=> //; exists [::]; last by rewrite printed_nil.
  by split=> //; case: (verbose _).
rewrite /mbind /= /lift.
case: (_e_step _ _ _) => [[ss sll]|e] //=.
set l := IterLine _ _ _.
have -> : (when (verbose (self_of w)) (print l)) w
          = (Ok tt, printed (if verbose (self_of w) then [:: l] else [::]) w).
  by case: (verbose _); rewrite //= printed_nil.
rewrite /= small_change_unreachable //=.
case: (_m_step _ _ _ _) => [new|e] //= /IH[//|Hb [ls Hls ->]].
split=> //; exists ((if verbose (self_of w) then [:: l] else [::]) ++ ls).
  exact: iter_output_step.
by rewrite printed_cat.
Qed.

(** X18: with a tolerance that is zero, negative, [nan] or [-inf], the
    loop of [fit] is never left by [break]: a verbose [fit] that returns
    has printed one line for each of the [max_iter] iterations and then
    the message that it did not converge. *)
Theorem unreachable_tol_never_converges w params_init init_method w' :
  unreachable_tol (tol (self_of w)) ->
  verbose (self_of w) = true ->
  fit X params_init init_method w = (Ok tt, w') ->
  exists ls,
    [/\ stdout w' = stdout w ++ rcons ls DidNotConverge,
        all is_iter_line ls
      & size ls = range_len (max_iter (self_of w))].
Proof.
move=> Ht Hv; rewrite /fit /mbind /=.
case Hinit: (initial_params _ _ _ _) => [[p0|e] w2] //;
  have /= Hw2 := initial_params_effect Hinit.
case Hloop: (fit_loop _ _ _ _ _ _ _) => [[ex|e] w3] //.
have [|Hb [ls [Hall Hsz] Hw3]] := fit_loop_unreachable _ Hloop.
  by rewrite Hw2.
rewrite Hw3 Hb /= Hw2 /= Hv /=.
case: (exit_ll ex) => [v|] //= [<-] /=.
exists ls; split=> //; first by rewrite -cats1 catA.
by rewrite Hsz Hw2 /= Hv.
Qed.

End UnreachableTolerance.

(** X18 on the small instance: tolerance [0], two iterations. *)
Lemma unreachable_tol_never_converges_witness :
  exists w' ls,
    [/\ fit Example.X (Some Example.params0) "kmeans"
          (Example.start (GMM_init GMM (Fin 0) 2 0 true)) = (Ok tt, w'),
        stdout w' = rcons ls DidNotConverge
      & size ls = 2%N].
Proof.
have [w' Hfit] := example_exhausted_run true.
have [//|//|ls [Hout _ Hsz]] := unreachable_tol_never_converges _ _ Hfit.
by exists w', ls.
Defined.

Section SameConfiguration.
Context {F : realFieldType} {K D L : nat} {E : Externals F D L}.
Variables (N : nat) (X : 'M[F]_(N, D)).
Implicit Types (self : model F K D L) (p : option (params_dict F K D L)).
Implicit Types (o : pyfloat F) (ll : option (pyfloat F)).

(** The steps of EM read the configuration and [data_dim] only. *)
Lemma e_step_same_config self1 self2 p :
  config self1 = config self2 -> data_dim self1 = data_dim self2 ->
  _e_step self1 X p = _e_step self2 X p.
Proof.
case: self1 self2 => [c1 t1 m1 r1 f1 v1 l1 d1 q1 n1]
                     [c2 t2 m2 r2 f2 v2 l2 d2 q2 n2].
by rewrite /config /= => -[-> _ _ _ _ ->] ->.
Qed.

Lemma m_step_same_config self1 self2 (ss : ss_dict F K L N) p :
  config self1 = config self2 -> data_dim self1 = data_dim self2 ->
  _m_step self1 X ss p = _m_step self2 X ss p.
Proof.
case: self1 self2 => [c1 t1 m1 r1 f1 v1 l1 d1 q1 n1]
                     [c2 t2 m2 r2 f2 v2 l2 d2 q2 n2].
by rewrite /config /= => -[-> _ _ _ _ ->] ->.
Qed.

Lemma init_params_same_config self1 self2 init_method out g s :
  config self1 = config self2 ->
  _init_params init_method X (World self1 out g s)
  = (let r := _init_params init_method X (World self2 out g s) in
     (r.1, World self1 (stdout r.2) (np_random r.2) (py_random r.2))).
Proof.
case: self1 self2 => [c1 t1 m1 r1 f1 v1 l1 d1 q1 n1]
                     [c2 t2 m2 r2 f2 v2 l2 d2 q2 n2].
rewrite /config /= => -[-> _ _ -> _ ->].
rewrite /_init_params /mbind /=.
case: c2;
  rewrite /GMM_init_params /SphericalGMM_init_params
    /DiagonalGMM_init_params /MPPCA_init_params /MFA_init_params /mbind /=;
  case: (String.eqb _ _) => //=; rewrite /lift.
- by case: (KMeans_fit _ _).
- by case: (KMeans_fit _ _) => [km|e] //=; case: (traverse _ _).
- by case: (KMeans_fit _ _) => [km|e] //=; case: (traverse _ _).
- case: (KMeans_fit _ _) => [km|e] //=.
  by rewrite /latent_dim_is_L /=; case: (traverse _ _).
- case: (KMeans_fit _ _) => [km|e] //=.
  by rewrite /latent_dim_is_L /=; case: (traverse _ _).
Qed.

Lemma fit_loop_same_config self1 self2 todo i p o ll out g s :
  config self1 = config self2 -> data_dim self1 = data_dim self2 ->
  fit_loop X todo i p o ll (World self1 out g s)
  = (let r := fit_loop X todo i p o ll (World self2 out g s) in
     (r.1, World self1 (stdout r.2) (np_random r.2) (py_random r.2))).
Proof.
move=> Hc Hd.
have [Hv Ht] : verbose self1 = verbose self2 /\ tol self1 = tol self2.
  by case: Hc.
elim: todo i p o ll out => [|todo IH] i p o ll out //=.
rewrite /mbind /= /lift (e_step_same_config _ Hc Hd).
case: (_e_step self2 X p) => [[ss sll]|e] //=.
rewrite Hv; case: (verbose self2) => /=; rewrite Ht;
  case: (small_change _ _ _) => //=;
  rewrite (m_step_same_config _ _ Hc Hd);
  case: (_m_step _ _ _ _) => [new|e] //=; rewrite /printed /=; exact: IH.
Qed.

Lemma fitted_with_same_config self1 self2 p (v : pyfloat F) :
  config self1 = config self2 -> data_dim self1 = data_dim self2 ->
  fitted_with p v self1 = fitted_with p v self2.
Proof.
case: self1 self2 => [c1 t1 m1 r1 f1 v1 l1 d1 q1 n1]
                     [c2 t2 m2 r2 f2 v2 l2 d2 q2 n2].
by rewrite /config /= => -[-> -> -> -> -> ->] ->.
Qed.

(** X19: [fit] never reads what an earlier [fit] left in the instance.
    Two instances with the same configuration (class, [tol], [max_iter],
    [random_state], [verbose], [latent_dim]) that are fitted in the same
    state of the interpreter with the same arguments have the same
    outcome, and when [fit] returns they end in the same state, whatever
    [isFitted], [data_dim], [params] and [trainNll] held before. *)
Theorem fit_ignores_earlier_fit self1 self2 out g s params_init
    init_method :
  config self1 = config self2 ->
  let run1 := fit X params_init init_method (World self1 out g s) in
  let run2 := fit X params_init init_method (World self2 out g s) in
  run1.1 = run2.1 /\ (run2.1 = Ok tt -> run1.2 = run2.2).
Proof.
move=> Hc /=.
have Hc' : config (set_data_dim D self1) = config (set_data_dim D self2).
  by move: Hc; rewrite /config /=.
have Hd : data_dim (set_data_dim D self1) = data_dim (set_data_dim D self2).
  by [].
have [Hv Hm] : verbose self1 = verbose self2 /\ max_iter self1 = max_iter self2.
  by case: Hc.
set s1 := set_data_dim D self1 in Hc' Hd *.
set s2 := set_data_dim D self2 in Hc' Hd *.
have Hinit :
    initial_params X params_init init_method (World s1 out g s)
    = (let r := initial_params X params_init init_method (World s2 out g s) in
       (r.1, World s1 (stdout r.2) (np_random r.2) (py_random r.2))).
  by case: params_init => [p0|] //=; exact: init_params_same_config.
rewrite /fit /mbind /= /updated /= -/s1 -/s2 Hinit.
case Hinit2: (initial_params _ _ _ (World s2 _ _ _)) => [[p0|e] w2] //;
  have /= -> := initial_params_effect Hinit2.
rewrite /= (fit_loop_same_config _ _ _ _ _ _ _ _ Hc' Hd) /= Hm.
case Hloop: (fit_loop _ _ _ _ _ _ _) => [[ex|e] w3] //;
  have [ls [-> _ _]] := fit_loop_effect Hloop.
rewrite /= Hv.
case: (exit_break ex) => /=; case: (verbose self2) => /=;
  case: (exit_ll ex) => [v|] //=; split=> // _;
  by congr World; exact: (fitted_with_same_config _ _ Hc' Hd).
Qed.

End SameConfiguration.

(** X19 on the small instance: an instance that is already fitted and a
    fresh one with the same configuration. *)
Lemma fit_ignores_earlier_fit_witness :
  let fresh : model rat 1 1 1 := GMM_init GMM (Fin 1) 10 0 true in
  (fit Example.X (Some Example.params0) "kmeans"
     (Example.start Example.fitted_gmm)).1
  = (fit Example.X (Some Example.params0) "kmeans" (Example.start fresh)).1.
Proof.
move=> fresh.
have [H _] :=
  @fit_ignores_earlier_fit rat 1 1 1 Example.ext 1 Example.X
    Example.fitted_gmm fresh [::] (np_random (Example.start fresh)) None
    (Some Example.params0) "kmeans" erefl.
exact: H.
Defined.

Section MixtureDensity.
Context {F : realFieldType} {K D L : nat} {E : Externals F D L}.
Variables (N : nat) (X : 'M[F]_(N, D)).
Implicit Types (self : model F K D L) (p : params_dict F K D L).

(** X20: what the E-step of every class computes.  With [dens] the
    matrix whose column [k] is the density of component [k] at the rows of
    [X] (zero for a component without a mean or a covariance), the
    log-likelihood of row [n] is the logarithm of the mixture density
    [sum_k dens[n,k] * components[k]], and the responsibility of
    component [k] for row [n] is its share of that sum. *)
Theorem e_step_mixture_density self p mus c Sigmas ss sample_ll :
  _e_step self X (Some p) = Ok (ss, sample_ll) ->
  mu_list p = Some mus -> components p = Some c ->
  _params_to_Sigma self (Some p) = Ok Sigmas ->
  exists dens : 'M[F]_(N, K),
    [/\ forall k : 'I_K,
          if (k < minn (size mus) (size Sigmas))%N then
            pdf_of (class_of self) X (nth 0 mus k) (nth 0 Sigmas k)
            = Ok (col k dens)
          else col k dens = 0,
        sample_ll
        = [seq np_log (\sum_k dens n k * c 0 k) | n <- enum 'I_N]
      & exists2 resp, responsibilities ss = Some resp
          & forall n k,
              resp n k = dens n k * c 0 k / (\sum_j dens n j * c 0 j)].
Proof.
move=> /e_step_structure[q [mus' [c' [Sigmas' [dens]]]]].
move=> [[<-] [Hmu Hc] HS /densities_spec Hd [Hresp ->]].
rewrite Hmu Hc HS => -[<-] [<-] [<-].
exists dens; split=> //.
- apply: eq_map => n; rewrite mxE; congr (np_log _).
  by apply: eq_bigr => k _; rewrite mxE.
- exists (normalise (weighted dens c')) => // n k.
  rewrite !mxE; congr (_ / _).
  by apply: eq_bigr => j _; rewrite mxE.
Qed.

End MixtureDensity.

(** X20 on the small instance. *)
Lemma e_step_mixture_density_witness :
  let self : model rat 1 1 1 :=
    set_data_dim 1 (GMM_init GMM (Fin 1) 10 0 true) in
  exists ss sample_ll,
    _e_step self Example.X (Some Example.params0) = Ok (ss, sample_ll)
    /\ size sample_ll = 1%N.
Proof.
move=> self.
have [dens [_ Hll _]] :=
  @e_step_mixture_density rat 1 1 1 Example.ext 1 Example.X self
    Example.params0 _ _ _ _ _ erefl erefl erefl erefl.
do 2!eexists; split; first by reflexivity.
by rewrite Hll size_map size_enum_ord.
Defined.
